(** * Synthetic telemetry generator (go-sample-app): model and properties

    Shallow embedding of
    - [sample-apps/go-sample-app/collection/collector.go] (package
      [collection]): the four instruments, their registration, the
      synchronous update functions and the asynchronous callbacks;
    - the stand-alone [main] package with the configuration loader
      ([conf], [getConf], [getDefaultConfig]).

    Go's [int64] values are integers in [Z] with the wrap-around written
    out; [int] is taken to be 64 bits wide, so [int(x)] and [int64(x)] are
    the identity on in-range values.  Package-level variables, the state of
    [math/rand]'s global source, the calls received by the metrics backend
    and the lines printed on standard output are the fields of an explicit
    [world]; a Go function that may panic is a function from [world] to an
    [outcome]. *)

From Stdlib Require Import ZArith Lia Bool Ascii String.
From stdpp Require Import base option list strings pretty gmap.

Local Open Scope Z_scope.

(** ** Go's 64-bit signed integers *)

Module Int64.

Definition min_int : Z := - 2 ^ 63.
Definition max_int : Z := 2 ^ 63 - 1.

Definition in_range (z : Z) : Prop := min_int <= z <= max_int.

(** Two's complement wrap-around of an arithmetic result. *)
Definition wrap (z : Z) : Z := (z + 2 ^ 63) mod 2 ^ 64 - 2 ^ 63.

End Int64.

(** ** Outcomes of Go code: normal return or panic, over a state *)

Section Outcome.

Context {St : Type}.

Inductive outcome (A : Type) : Type :=
| Done (a : A) (s : St)
| Panic (msg : string) (s : St).

Definition go (A : Type) : Type := St -> outcome A.

Definition go_ret {A} (a : A) : go A := fun s => Done A a s.

Definition go_bind {A B} (m : go A) (k : A -> go B) : go B :=
  fun s => match m s with
           | Done _ a s' => k a s'
           | Panic _ msg s' => Panic B msg s'
           end.

Definition panic {A} (msg : string) : go A := fun s => Panic A msg s.

Definition gets {A} (f : St -> A) : go A := fun s => Done A (f s) s.

Definition modify (f : St -> St) : go unit := fun s => Done unit tt (f s).

(** [for i := 0; i < n; i++ { body }] *)
Fixpoint times (n : nat) (body : go unit) : go unit :=
  match n with
  | O => go_ret tt
  | S n' => go_bind body (fun _ => times n' body)
  end.

Definition final_state {A} (o : outcome A) : St :=
  match o with Done _ _ s => s | Panic _ _ s => s end.

Definition returned {A} (o : outcome A) : bool :=
  match o with Done _ _ _ => true | Panic _ _ _ => false end.

End Outcome.

Arguments outcome : clear implicits.
Arguments go : clear implicits.
Arguments Done {St A} a s.
Arguments Panic {St A} msg s.

Declare Scope go_scope.
Delimit Scope go_scope with go.
Notation "x <- m ;; k" := (go_bind m (fun x => k))
  (at level 100, m at next level, right associativity) : go_scope.
Notation "m ;;; k" := (go_bind m (fun _ => k))
  (at level 100, right associativity) : go_scope.

Local Open Scope go_scope.

(** ** Package [collection] (collector.go) *)

Module Collection.

(** The four kinds of instrument the meter hands out. *)
Inductive kind : Type :=
| SyncCounter
| AsyncGauge
| AsyncUpDownCounter
| SyncUpDownCounter.

(** An instrument as the backend knows it. *)
Record instrument : Type := Instrument {
  i_kind : kind;
  i_name : string;
  i_description : string;
  i_unit : string
}.

(** A Go interface value: [None] is the nil interface. *)
Definition handle : Type := option instrument.

(** Calls that reach the backend through an instrument handle. *)
Inductive call : Type :=
| Add (i : instrument) (incr : Z)
| Observe (i : instrument) (v : Z).

(** Modelled from the spec: the [Config] struct of package [collection]
    is declared in a file that is not among the sources; its fields are
    the ones collector.go reads ([TimeInterval], [TimeAliveIncrementer],
    [TotalheapSizeUpperBound], [ThreadsActiveUpperBound],
    [CpuUsageUpperBound]) plus the spec's [host] and [port], all integers
    being [int64]. *)
Record Config : Type := MkConfig {
  Host : string;
  Port : string;
  TimeInterval : Z;
  TimeAliveIncrementer : Z;
  TotalheapSizeUpperBound : Z;
  ThreadsActiveUpperBound : Z;
  CpuUsageUpperBound : Z
}.

(** [type randomMetricCollector struct] *)
Record randomMetricCollector : Type := MkCollector {
  rmc_timeAlive : handle;
  rmc_cpuUsage : handle;
  rmc_heapSize : handle;
  rmc_threadsActive : handle
}.

(** The closures handed to [meter.RegisterCallback], defunctionalised:
    each one captures the collector and the configuration. *)
Inductive callback : Type :=
| CpuUsageCallback (rmc : randomMetricCollector) (cfg : Config)
| HeapSizeCallback (rmc : randomMetricCollector) (cfg : Config).

(** Everything the package reads and writes besides its arguments. *)
Record world : Type := World {
  threadsActive : Z;            (* var threadsActive int64 = 0 *)
  threadsBool : bool;           (* var threadsBool = true *)
  rand_seed : Z;                (* state of math/rand's global source *)
  calls : list call;            (* Add/Observe calls so far, oldest first *)
  registered : list callback;   (* callbacks accepted by the meter *)
  stdout : list string          (* lines printed, oldest first *)
}.

(** The package-level variable initialisers. *)
Definition init_world (seed : Z) : world :=
  {| threadsActive := 0; threadsBool := true; rand_seed := seed;
     calls := []; registered := []; stdout := [] |}.

Definition set_threadsActive (v : Z) (w : world) : world :=
  {| threadsActive := v; threadsBool := threadsBool w;
     rand_seed := rand_seed w; calls := calls w;
     registered := registered w; stdout := stdout w |}.

Definition set_threadsBool (b : bool) (w : world) : world :=
  {| threadsActive := threadsActive w; threadsBool := b;
     rand_seed := rand_seed w; calls := calls w;
     registered := registered w; stdout := stdout w |}.

Definition set_rand_seed (s : Z) (w : world) : world :=
  {| threadsActive := threadsActive w; threadsBool := threadsBool w;
     rand_seed := s; calls := calls w;
     registered := registered w; stdout := stdout w |}.

Definition push_call (c : call) (w : world) : world :=
  {| threadsActive := threadsActive w; threadsBool := threadsBool w;
     rand_seed := rand_seed w; calls := calls w ++ [c];
     registered := registered w; stdout := stdout w |}.

Definition push_callback (c : callback) (w : world) : world :=
  {| threadsActive := threadsActive w; threadsBool := threadsBool w;
     rand_seed := rand_seed w; calls := calls w;
     registered := registered w ++ [c]; stdout := stdout w |}.

Definition push_line (l : string) (w : world) : world :=
  {| threadsActive := threadsActive w; threadsBool := threadsBool w;
     rand_seed := rand_seed w; calls := calls w;
     registered := registered w; stdout := stdout w ++ [l] |}.

(** [fmt.Println] *)
Definition Println (l : string) : go world unit := modify (push_line l).

(** Go's message for a method call through a nil interface. *)
Definition nil_dereference : string :=
  "runtime error: invalid memory address or nil pointer dereference".

(** [h.Add(ctx, incr)] *)
Definition handle_Add (h : handle) (incr : Z) : go world unit :=
  match h with
  | Some i => modify (push_call (Add i incr))
  | None => panic nil_dereference
  end.

(** [h.Observe(ctx, v)] *)
Definition handle_Observe (h : handle) (v : Z) : go world unit :=
  match h with
  | Some i => modify (push_call (Observe i v))
  | None => panic nil_dereference
  end.

(** The metrics API as the package uses it.  An instrument constructor
    returns Go's pair [(instrument, error)]; [RegisterCallback] returns
    an [error].  [None] in an error position is [nil]. *)
Record Meter : Type := MkMeter {
  new_instrument : kind -> string -> string -> string -> handle * option string;
  RegisterCallback : list handle -> option string
}.

(** [math/rand]'s global source: [Intn_value s n] is the number [Intn(n)]
    returns when the source is in state [s], [Intn_advance s] the state it
    leaves; by the documentation of [Intn] the number lies in [[0, n)]. *)
Record Rand : Type := MkRand {
  Intn_value : Z -> Z -> Z;
  Intn_advance : Z -> Z;
  Intn_range : forall s n, 0 < n -> 0 <= Intn_value s n < n
}.

Section Collector.

Variable meter : Meter.
Variable rng : Rand.

(** [rand.Intn(n)]: panics when [n <= 0]. *)
Definition rand_Intn (n : Z) : go world Z :=
  if n <=? 0 then panic "invalid argument to Intn"
  else
    s <- gets rand_seed ;;
    modify (set_rand_seed (Intn_advance rng s)) ;;;
    go_ret (Intn_value rng s n).

(** The shape shared by the four [register...] methods: ask the meter,
    print the error if there is one, and hand back the instrument for
    the assignment to the collector's field. *)
Definition register (k : kind) (name description unit : string)
  : go world handle :=
  let '(h, err) := new_instrument meter k name description unit in
  match err with
  | Some e => Println e
  | None => go_ret tt
  end ;;;
  go_ret h.

Definition registerTimeAlive (rmc : randomMetricCollector)
  : go world randomMetricCollector :=
  timeAlive <- register SyncCounter "Time Alive"
    "Total amount of time that the application has been alive" "s" ;;
  go_ret {| rmc_timeAlive := timeAlive;
            rmc_cpuUsage := rmc_cpuUsage rmc;
            rmc_heapSize := rmc_heapSize rmc;
            rmc_threadsActive := rmc_threadsActive rmc |}.

Definition registerCpuUsage (rmc : randomMetricCollector)
  : go world randomMetricCollector :=
  cpuUsage <- register AsyncGauge "CPU Usage" "Cpu usage percent" "%" ;;
  go_ret {| rmc_timeAlive := rmc_timeAlive rmc;
            rmc_cpuUsage := cpuUsage;
            rmc_heapSize := rmc_heapSize rmc;
            rmc_threadsActive := rmc_threadsActive rmc |}.

Definition registerHeapSize (rmc : randomMetricCollector)
  : go world randomMetricCollector :=
  totalHeapSize <- register AsyncUpDownCounter "Total Heap Size"
    "The current total heap size" "1" ;;
  go_ret {| rmc_timeAlive := rmc_timeAlive rmc;
            rmc_cpuUsage := rmc_cpuUsage rmc;
            rmc_heapSize := totalHeapSize;
            rmc_threadsActive := rmc_threadsActive rmc |}.

Definition registerThreadsActive (rmc : randomMetricCollector)
  : go world randomMetricCollector :=
  threadsActive <- register SyncUpDownCounter "Threads Active"
    "The total amount of threads active" "1" ;;
  go_ret {| rmc_timeAlive := rmc_timeAlive rmc;
            rmc_cpuUsage := rmc_cpuUsage rmc;
            rmc_heapSize := rmc_heapSize rmc;
            rmc_threadsActive := threadsActive |}.

(** [func NewRandomMetricCollector() randomMetricCollector] *)
Definition NewRandomMetricCollector : go world randomMetricCollector :=
  let rmc := {| rmc_timeAlive := None; rmc_cpuUsage := None;
                rmc_heapSize := None; rmc_threadsActive := None |} in
  rmc <- registerHeapSize rmc ;;
  rmc <- registerThreadsActive rmc ;;
  rmc <- registerTimeAlive rmc ;;
  rmc <- registerCpuUsage rmc ;;
  go_ret rmc.

(** [func (rmc *randomMetricCollector) updateTimeAlive] *)
Definition updateTimeAlive (rmc : randomMetricCollector) (cfg : Config)
  : go world unit :=
  handle_Add (rmc_timeAlive rmc) (TimeAliveIncrementer cfg).

(** The closure registered by [updateCpuUsage]. *)
Definition cpuUsageCallback (rmc : randomMetricCollector) (cfg : Config)
  : go world unit :=
  let min := 0 in
  let max := CpuUsageUpperBound cfg in
  r <- rand_Intn (max - min) ;;
  let cpuUsage := r + min in
  handle_Observe (rmc_cpuUsage rmc) cpuUsage ;;;
  Println "CPU Usage asked by SDK".

(** The closure registered by [updateTotalHeapSize]. *)
Definition heapSizeCallback (rmc : randomMetricCollector) (cfg : Config)
  : go world unit :=
  let min := 0 in
  let max := TotalheapSizeUpperBound cfg in
  r <- rand_Intn (max - min) ;;
  let totalHeapSize := r + min in
  handle_Observe (rmc_heapSize rmc) totalHeapSize ;;;
  Println "Heapsize asked by SDK".

(** What the SDK does when it invokes a registered callback. *)
Definition invoke (c : callback) : go world unit :=
  match c with
  | CpuUsageCallback rmc cfg => cpuUsageCallback rmc cfg
  | HeapSizeCallback rmc cfg => heapSizeCallback rmc cfg
  end.

(** [func (rmc *randomMetricCollector) updateCpuUsage] *)
Definition updateCpuUsage (rmc : randomMetricCollector) (cfg : Config)
  : go world unit :=
  match RegisterCallback meter [rmc_cpuUsage rmc] with
  | Some err => panic err
  | None => modify (push_callback (CpuUsageCallback rmc cfg))
  end.

(** [func (rmc *randomMetricCollector) updateTotalHeapSize] *)
Definition updateTotalHeapSize (rmc : randomMetricCollector) (cfg : Config)
  : go world unit :=
  match RegisterCallback meter [rmc_heapSize rmc] with
  | Some err => panic err
  | None => modify (push_callback (HeapSizeCallback rmc cfg))
  end.

(** [func (rmc *randomMetricCollector) updateThreadsActive] *)
Definition updateThreadsActive (rmc : randomMetricCollector) (cfg : Config)
  : go world unit :=
  tb <- gets threadsBool ;;
  if (tb : bool) then
    ta <- gets threadsActive ;;
    if ta <? Int64.wrap (ThreadsActiveUpperBound cfg) then
      handle_Add (rmc_threadsActive rmc) 1 ;;;
      modify (fun w => set_threadsActive (Int64.wrap (threadsActive w + 1)) w)
    else
      modify (set_threadsBool false) ;;;
      modify (fun w => set_threadsActive (Int64.wrap (threadsActive w - 1)) w)
  else
    ta <- gets threadsActive ;;
    if ta >? 0 then
      handle_Add (rmc_threadsActive rmc) (-1) ;;;
      modify (fun w => set_threadsActive (Int64.wrap (threadsActive w - 1)) w)
    else
      modify (set_threadsBool true) ;;;
      modify (fun w => set_threadsActive (Int64.wrap (threadsActive w + 1)) w).

(** One pass through the body of the [for] loop that
    [UpdateMetricsClient] starts in its goroutine ([time.Sleep] leaves
    the world as it is). *)
Definition syncTick (rmc : randomMetricCollector) (cfg : Config)
  : go world unit :=
  updateTimeAlive rmc cfg ;;;
  updateThreadsActive rmc cfg ;;;
  Println "Updating time alive && threads active...".

(** The part of [UpdateMetricsClient] that runs on the caller's
    goroutine: the two callback registrations. *)
Definition UpdateMetricsClient (rmc : randomMetricCollector) (cfg : Config)
  : go world unit :=
  updateCpuUsage rmc cfg ;;;
  updateTotalHeapSize rmc cfg.

End Collector.

End Collection.

(** ** Package [main]: the configuration loader *)

Module Main.

(** [type conf struct], with the YAML key of each field. *)
Record conf : Type := MkConf {
  Host : string;                    (* yaml:"Host" *)
  Port : string;                    (* yaml:"Port" *)
  TimeAliveIncrementer : Z;         (* yaml:"RandomTimeAliveIncrementer" *)
  TotalheapSizeUpperBound : Z;      (* yaml:"RandomTotalHeapSizeUpperBound" *)
  ThreadsActiveUpperBound : Z;      (* yaml:"RandomThreadsActiveUpperBound" *)
  CpuUsageUpperBound : Z            (* yaml:"RandomCpuUsageUpperBound" *)
}.

(** [var c conf]: every field has its zero value. *)
Definition zero_conf : conf :=
  {| Host := ""; Port := ""; TimeAliveIncrementer := 0;
     TotalheapSizeUpperBound := 0; ThreadsActiveUpperBound := 0;
     CpuUsageUpperBound := 0 |}.

Definition defaultHost : string := "0.0.0.0".
Definition defaultPort : string := "4567".
Definition defaultTimeAliveIncrementer : Z := 1.
Definition defaultTotalHeapSizeUpperBound : Z := 100.
Definition defaultThreadsActiveUpperBound : Z := 10.
Definition defaultCpuUsageUpperBound : Z := 100.

(** [func (c *conf) getDefaultConfig() *conf]: six assignments through
    the receiver, which is then returned. *)
Definition getDefaultConfig (c : conf) : conf :=
  let c := {| Host := defaultHost; Port := Port c;
              TimeAliveIncrementer := TimeAliveIncrementer c;
              TotalheapSizeUpperBound := TotalheapSizeUpperBound c;
              ThreadsActiveUpperBound := ThreadsActiveUpperBound c;
              CpuUsageUpperBound := CpuUsageUpperBound c |} in
  let c := {| Host := Host c; Port := defaultPort;
              TimeAliveIncrementer := TimeAliveIncrementer c;
              TotalheapSizeUpperBound := TotalheapSizeUpperBound c;
              ThreadsActiveUpperBound := ThreadsActiveUpperBound c;
              CpuUsageUpperBound := CpuUsageUpperBound c |} in
  let c := {| Host := Host c; Port := Port c;
              TimeAliveIncrementer := Int64.wrap defaultTimeAliveIncrementer;
              TotalheapSizeUpperBound := TotalheapSizeUpperBound c;
              ThreadsActiveUpperBound := ThreadsActiveUpperBound c;
              CpuUsageUpperBound := CpuUsageUpperBound c |} in
  let c := {| Host := Host c; Port := Port c;
              TimeAliveIncrementer := TimeAliveIncrementer c;
              TotalheapSizeUpperBound := Int64.wrap defaultTotalHeapSizeUpperBound;
              ThreadsActiveUpperBound := ThreadsActiveUpperBound c;
              CpuUsageUpperBound := CpuUsageUpperBound c |} in
  let c := {| Host := Host c; Port := Port c;
              TimeAliveIncrementer := TimeAliveIncrementer c;
              TotalheapSizeUpperBound := TotalheapSizeUpperBound c;
              ThreadsActiveUpperBound := Int64.wrap defaultThreadsActiveUpperBound;
              CpuUsageUpperBound := CpuUsageUpperBound c |} in
  {| Host := Host c; Port := Port c;
     TimeAliveIncrementer := TimeAliveIncrementer c;
     TotalheapSizeUpperBound := TotalheapSizeUpperBound c;
     ThreadsActiveUpperBound := ThreadsActiveUpperBound c;
     CpuUsageUpperBound := Int64.wrap defaultCpuUsageUpperBound |}.

(** [gopkg.in/yaml.v3] as the loader uses it.  [parse] is the syntactic
    half of [yaml.Unmarshal]: it fails on bytes that are not a YAML
    document whose root is a mapping, and otherwise gives the mapping from
    keys to value nodes.  [is_null] tells the null value ([~], [null], an
    empty value).  [as_string] and [as_int64] are the conversions of a
    value node that is not null to a Go [string] and [int64] field; they
    fail on a node of the wrong type. *)
Record Yaml : Type := MkYaml {
  node : Type;
  parse : string -> option (gmap string node);
  is_null : node -> bool;
  as_string : node -> option string;
  as_int64 : node -> option Z
}.

Section Loader.

Variable yaml : Yaml.

(** The file system seen by [ioutil.ReadFile]: path to contents. *)
Variable fs : gmap string string.

(** [ioutil.ReadFile]: the contents, or an error. *)
Definition ReadFile (path : string) : string + string :=
  match fs !! path with
  | Some data => inl data
  | None => inr ("open " +:+ path +:+ ": no such file or directory")
  end.

(** Decoding of one struct field: a key that is absent from the mapping
    leaves the field as it is; so does a key whose value is null, a [string]
    or [int64] field not being set to its zero value by a null, and neither
    is an error; a value of the wrong type leaves the field as it is too
    and is reported (second component [false]). *)
Definition decode_field {A} (conv : node yaml -> option A)
    (m : gmap string (node yaml)) (key : string) (old : A) : A * bool :=
  match m !! key with
  | None => (old, true)
  | Some n =>
      if is_null yaml n then (old, true)
      else
        match conv n with
        | Some v => (v, true)
        | None => (old, false)
        end
  end.

(** Decoding of the mapping into [*conf], field by field, by the
    struct tags; all fields are attempted and the conversion errors are
    reported together at the end. *)
Definition decode (m : gmap string (node yaml)) (c : conf)
  : conf * option string :=
  let '(host, ok1) := decode_field (as_string yaml) m "Host" (Host c) in
  let '(port, ok2) := decode_field (as_string yaml) m "Port" (Port c) in
  let '(incr, ok3) := decode_field (as_int64 yaml) m
                        "RandomTimeAliveIncrementer" (TimeAliveIncrementer c) in
  let '(heap, ok4) := decode_field (as_int64 yaml) m
                        "RandomTotalHeapSizeUpperBound" (TotalheapSizeUpperBound c) in
  let '(thr, ok5) := decode_field (as_int64 yaml) m
                        "RandomThreadsActiveUpperBound" (ThreadsActiveUpperBound c) in
  let '(cpu, ok6) := decode_field (as_int64 yaml) m
                        "RandomCpuUsageUpperBound" (CpuUsageUpperBound c) in
  ({| Host := host; Port := port; TimeAliveIncrementer := incr;
      TotalheapSizeUpperBound := heap; ThreadsActiveUpperBound := thr;
      CpuUsageUpperBound := cpu |},
   if ok1 && ok2 && ok3 && ok4 && ok5 && ok6 then None
   else Some "yaml: unmarshal errors").

(** [yaml.Unmarshal(data, c)]: the struct as it is left, and the error. *)
Definition Unmarshal (data : string) (c : conf) : conf * option string :=
  match parse yaml data with
  | None => (c, Some "yaml: invalid document")
  | Some m => decode m c
  end.

(** [func (c *conf) getConf() *conf] *)
Definition getConf (c : conf) : conf :=
  match ReadFile "config.yaml" with
  | inr err => getDefaultConfig c
  | inl yamlFile =>
      let '(c, err) := Unmarshal yamlFile c in
      match err with
      | Some _ => getDefaultConfig c
      | None => c
      end
  end.

End Loader.

End Main.

(** ** Package [main]: the observers *)

(** Package [main] declares the same two variables as package
    [collection], [threadsActive] and [threadsBool], with the same
    initialisers, and talks to the same metrics API; its functions run on a
    world of the same shape. *)
Module Observers.

Import Collection.

Section WithMeter.

Variable meter : Meter.

(** [func counterObserver(ctx context.Context)]: the error of the
    constructor is discarded ([counter, _ := ...]). *)
Definition counterObserver : go world unit :=
  let '(counter, _) := new_instrument meter SyncCounter "Time Alive"
                         "Total time that the application has been alive for"
                         "s" in
  handle_Add counter 1.

(** [func upDownCounterObserver(ctx context.Context)]; [fmt.Println] of an
    [int64] prints its decimal form. *)
Definition upDownCounterObserver : go world unit :=
  let '(upDownCounter, _) := new_instrument meter SyncUpDownCounter
                               "Threads Active"
                               "The total amount of threads active" "1" in
  (tb <- gets threadsBool ;;
   if (tb : bool) then
     ta <- gets threadsActive ;;
     if ta <? Int64.wrap Main.defaultThreadsActiveUpperBound then
       handle_Add upDownCounter 1 ;;;
       modify (fun w => set_threadsActive (Int64.wrap (threadsActive w + 1)) w)
     else
       modify (set_threadsBool false) ;;;
       modify (fun w => set_threadsActive (Int64.wrap (threadsActive w - 1)) w)
   else
     ta <- gets threadsActive ;;
     if ta >? 0 then
       handle_Add upDownCounter (-1) ;;;
       modify (fun w => set_threadsActive (Int64.wrap (threadsActive w - 1)) w)
     else
       modify (set_threadsBool true) ;;;
       modify (fun w => set_threadsActive (Int64.wrap (threadsActive w + 1)) w)) ;;;
  v <- gets threadsActive ;;
  Println (pretty v).

End WithMeter.

End Observers.

(** * Auxiliary definitions for the statements *)

Import Collection.

(** The oscillator's state inside the world: value and direction
    ([true] is Rising, [false] is Falling). *)
Definition osc (w : world) : Z * bool := (threadsActive w, threadsBool w).

(** The world after a tick that flips the direction: no call is made. *)
Definition flipped (v : Z) (b : bool) (w : world) : world :=
  set_threadsActive v (set_threadsBool b w).

(** The world after a tick that keeps the direction: one [Add]. *)
Definition stepped (i : instrument) (d v : Z) (w : world) : world :=
  set_threadsActive v (push_call (Add i d) w).

(** The calls an execution started in [w] has added to the backend's log. *)
Definition emitted {A} (w : world) (o : outcome world A) : list call :=
  drop (length (calls w)) (calls (final_state o)).

(** What an observer of one tick sees: whether it returned, the calls it
    made, and the oscillator state it left. *)
Definition tick_view (rmc : randomMetricCollector) (cfg : Config) (w : world)
  : bool * list call * (Z * bool) :=
  let o := updateThreadsActive rmc cfg w in
  (returned o, emitted w o, osc (final_state o)).

(** [n] oscillator ticks in a row. *)
Definition ticks (n : nat) (rmc : randomMetricCollector) (cfg : Config)
  : go world unit :=
  times n (updateThreadsActive rmc cfg).

(** What each of [n] successive ticks sends to the backend, with the value
    of [threadsActive] the tick leaves. *)
Fixpoint tick_trace (n : nat) (rmc : randomMetricCollector) (cfg : Config)
    (w : world) : list (list call * Z) :=
  match n with
  | O => []
  | S n' =>
      match updateThreadsActive rmc cfg w with
      | Done _ w' =>
          (emitted w (updateThreadsActive rmc cfg w), threadsActive w')
          :: tick_trace n' rmc cfg w'
      | Panic _ _ => []
      end
  end.

(** The value a cumulative instrument has accumulated from its [Add]s. *)
Fixpoint accumulated (i : instrument) (cs : list call) : Z :=
  match cs with
  | [] => 0
  | Add j d :: cs' =>
      (if decide (i_name j = i_name i) then d else 0) + accumulated i cs'
  | Observe _ _ :: cs' => accumulated i cs'
  end.

(** The bound a callback draws below, and the handle it observes on. *)
Definition callback_bound (c : callback) : Z :=
  match c with
  | CpuUsageCallback _ cfg => CpuUsageUpperBound cfg
  | HeapSizeCallback _ cfg => TotalheapSizeUpperBound cfg
  end.

Definition callback_handle (c : callback) : handle :=
  match c with
  | CpuUsageCallback rmc _ => rmc_cpuUsage rmc
  | HeapSizeCallback rmc _ => rmc_heapSize rmc
  end.

Definition callback_line (c : callback) : string :=
  match c with
  | CpuUsageCallback _ _ => "CPU Usage asked by SDK"
  | HeapSizeCallback _ _ => "Heapsize asked by SDK"
  end.

(** *** Concrete collaborators, for running the model *)

(** A meter that accepts every instrument. *)
Definition accepting_meter : Meter :=
  {| new_instrument := fun k name description unit =>
       (Some (Instrument k name description unit), None);
     RegisterCallback := fun _ => None |}.

(** A meter that rejects the instrument called [rejected] and returns a nil
    instrument with the error. *)
Definition rejecting_meter (rejected : string) : Meter :=
  {| new_instrument := fun k name description unit =>
       if decide (name = rejected)
       then (None, Some ("instrument rejected: " +:+ name))
       else (Some (Instrument k name description unit), None);
     RegisterCallback := fun _ => None |}.

(** A meter that reports an error for the instrument called [flagged] and
    returns the instrument all the same, Go's [(value, error)] with both
    set. *)
Definition complaining_meter (flagged : string) : Meter :=
  {| new_instrument := fun k name description unit =>
       (Some (Instrument k name description unit),
        if decide (name = flagged)
        then Some ("instrument flagged: " +:+ name)
        else None);
     RegisterCallback := fun _ => None |}.

(** A linear congruential source; [Intn(n)] reduces its state modulo [n]. *)
Definition lcg : Rand :=
  {| Intn_value := fun s n => s mod n;
     Intn_advance := fun s =>
       (s * 6364136223846793005 + 1442695040888963407) mod 2 ^ 63;
     Intn_range := fun s n Hn => Z.mod_pos_bound s n Hn |}.

(** The collector [NewRandomMetricCollector] builds on the accepting meter. *)
Definition threads_instrument : instrument :=
  Instrument SyncUpDownCounter "Threads Active"
    "The total amount of threads active" "1".

Definition cpu_instrument : instrument :=
  Instrument AsyncGauge "CPU Usage" "Cpu usage percent" "%".

Definition heap_instrument : instrument :=
  Instrument AsyncUpDownCounter "Total Heap Size"
    "The current total heap size" "1".

Definition time_instrument : instrument :=
  Instrument SyncCounter "Time Alive"
    "Total amount of time that the application has been alive" "s".

Definition full_collector : randomMetricCollector :=
  {| rmc_timeAlive := Some time_instrument;
     rmc_cpuUsage := Some cpu_instrument;
     rmc_heapSize := Some heap_instrument;
     rmc_threadsActive := Some threads_instrument |}.

(** The default configuration with the three bounds chosen. *)
Definition config_with (heap threads cpu : Z) : Config :=
  {| Collection.Host := "0.0.0.0"; Collection.Port := "4567";
     TimeInterval := 1; Collection.TimeAliveIncrementer := 1;
     Collection.TotalheapSizeUpperBound := heap;
     Collection.ThreadsActiveUpperBound := threads;
     Collection.CpuUsageUpperBound := cpu |}.

(** A reader of one-line documents [key: value], enough to run the loader:
    the empty document is the empty mapping, a line without [": "] is
    malformed, the values [~], [null] and the empty value are null, every
    other value reads as a string, and a value made of decimal digits reads
    as an [int64] when it fits. *)
Fixpoint split_key (s : string) : option (string * string) :=
  match s with
  | EmptyString => None
  | String c rest =>
      match rest with
      | String c' rest' =>
          if decide (c = ":"%char /\ c' = " "%char) then Some (EmptyString, rest')
          else match split_key rest with
               | Some (k, v) => Some (String c k, v)
               | None => None
               end
      | EmptyString => None
      end
  end.

Definition digit (c : ascii) : option Z :=
  let n := Z.of_nat (nat_of_ascii c) - 48 in
  if (0 <=? n) && (n <=? 9) then Some n else None.

Fixpoint decimal (acc : Z) (s : string) : option Z :=
  match s with
  | EmptyString => Some acc
  | String c rest =>
      match digit c with
      | Some d => decimal (10 * acc + d) rest
      | None => None
      end
  end.

Definition one_line_yaml : Main.Yaml :=
  {| Main.node := string;
     Main.parse := fun data =>
       match data with
       | EmptyString => Some ∅
       | _ => match split_key data with
              | Some (k, v) => Some {[ k := v ]}
              | None => None
              end
       end;
     Main.is_null := fun v =>
       bool_decide (v = "~" \/ v = "null" \/ v = EmptyString);
     Main.as_string := fun v => Some v;
     Main.as_int64 := fun v =>
       match v with
       | EmptyString => None
       | _ => match decimal 0 v with
              | Some z => if z <=? Int64.max_int then Some z else None
              | None => None
              end
       end |}.

(** The struct the spec documents as the default set. *)
Definition documented_default : Main.conf :=
  {| Main.Host := "0.0.0.0"; Main.Port := "4567";
     Main.TimeAliveIncrementer := 1;
     Main.TotalheapSizeUpperBound := 100;
     Main.ThreadsActiveUpperBound := 10;
     Main.CpuUsageUpperBound := 100 |}.

(** *** Runs of the synchronous loop and of the two clocks together *)

(** [n] passes through the body of the loop of [UpdateMetricsClient]. *)
Definition syncLoop (n : nat) (rmc : randomMetricCollector) (cfg : Config)
  : go world unit :=
  times n (syncTick rmc cfg).

(** What the two clocks do to the world: the loop advances the oscillator,
    the SDK invokes a registered callback. *)
Inductive event : Type :=
| Tick
| Collect (c : callback).

Definition run_event (rng : Rand) (rmc : randomMetricCollector) (cfg : Config)
    (e : event) : go world unit :=
  match e with
  | Tick => updateThreadsActive rmc cfg
  | Collect c => invoke rng c
  end.

(** One interleaving of the two clocks, event by event. *)
Fixpoint run_schedule (rng : Rand) (rmc : randomMetricCollector) (cfg : Config)
    (es : list event) : go world unit :=
  match es with
  | [] => go_ret tt
  | e :: es' => run_event rng rmc cfg e ;;; run_schedule rng rmc cfg es'
  end.

Fixpoint count_ticks (es : list event) : nat :=
  match es with
  | [] => O
  | Tick :: es' => S (count_ticks es')
  | Collect _ :: es' => count_ticks es'
  end.

Fixpoint count_collects (es : list event) : nat :=
  match es with
  | [] => O
  | Tick :: es' => count_collects es'
  | Collect _ :: es' => S (count_collects es')
  end.

(** An observation on [i] of a value in [[0, bound)]. *)
Definition observes_below (i : instrument) (bound : Z) (c : call) : Prop :=
  exists v, c = Observe i v /\ 0 <= v < bound.

(** The collector and configuration [upDownCounterObserver] corresponds to:
    the handle the meter returns for "Threads Active", the bound 10. *)
Definition observer_collector (meter : Meter) : randomMetricCollector :=
  {| rmc_timeAlive := None; rmc_cpuUsage := None; rmc_heapSize := None;
     rmc_threadsActive :=
       fst (new_instrument meter SyncUpDownCounter "Threads Active"
              "The total amount of threads active" "1") |}.

Definition observer_config : Config :=
  config_with Main.defaultTotalHeapSizeUpperBound
    Main.defaultThreadsActiveUpperBound Main.defaultCpuUsageUpperBound.

(** The struct a document decodes to, field by field: the converted value
    of a key that is present with a value that is not null, the old value
    of a key that is absent or null. *)
Definition field_of {A} (yaml : Main.Yaml)
    (conv : Main.node yaml -> option A)
    (m : gmap string (Main.node yaml)) (key : string) (old : A) : option A :=
  match m !! key with
  | Some n => if Main.is_null yaml n then Some old else conv n
  | None => Some old
  end.

(** The document gives [key] a value that is not null. *)
Definition has_value (yaml : Main.Yaml) (m : gmap string (Main.node yaml))
    (key : string) : Prop :=
  exists n, m !! key = Some n /\ Main.is_null yaml n = false.

(** The counter and the package variable in step: equal while rising, the
    counter one ahead while falling. *)
Definition counter_in_step (i : instrument) (B : Z) (w : world) : Prop :=
  if threadsBool w
  then 0 <= threadsActive w <= B
       /\ accumulated i (calls w) = threadsActive w
  else -1 <= threadsActive w <= B - 1
       /\ accumulated i (calls w) = threadsActive w + 1.

(** The six keys of the configuration document. *)
Definition conf_keys : list string :=
  ["Host"; "Port"; "RandomTimeAliveIncrementer";
   "RandomTotalHeapSizeUpperBound"; "RandomThreadsActiveUpperBound";
   "RandomCpuUsageUpperBound"].

(** A reader of documents of several [key: value] lines, with the same
    scalars as [one_line_yaml]; a repeated key makes the document
    malformed. *)
Fixpoint split_lines (acc s : string) : list string :=
  match s with
  | EmptyString => [acc]
  | String c rest =>
      if decide (c = ascii_of_nat 10)
      then acc :: split_lines EmptyString rest
      else split_lines (acc +:+ String c EmptyString) rest
  end.

Definition lines_yaml : Main.Yaml :=
  {| Main.node := string;
     Main.parse := fun data =>
       match mapM split_key
               (filter (fun l => l <> EmptyString) (split_lines EmptyString data))
       with
       | Some kvs =>
           if decide (NoDup (kvs.*1)) then Some (list_to_map kvs) else None
       | None => None
       end;
     Main.is_null := Main.is_null one_line_yaml;
     Main.as_string := Main.as_string one_line_yaml;
     Main.as_int64 := Main.as_int64 one_line_yaml |}.

(** A file that sets all six keys. *)
Definition complete_file : string :=
  "Host: 10.0.0.7" +:+ String (ascii_of_nat 10) (
  "Port: 9000" +:+ String (ascii_of_nat 10) (
  "RandomTimeAliveIncrementer: 2" +:+ String (ascii_of_nat 10) (
  "RandomTotalHeapSizeUpperBound: 500" +:+ String (ascii_of_nat 10) (
  "RandomThreadsActiveUpperBound: 8" +:+ String (ascii_of_nat 10) (
  "RandomCpuUsageUpperBound: 90"))))).

(** * Properties *)

(** ** Integers *)

Lemma wrap_in_range z : Int64.in_range (Int64.wrap z).
Proof.
  unfold Int64.in_range, Int64.wrap, Int64.min_int, Int64.max_int.
  pose proof (Z.mod_pos_bound (z + 2 ^ 63) (2 ^ 64) ltac:(lia)). lia.
Qed.

Lemma wrap_id z : Int64.in_range z -> Int64.wrap z = z.
Proof.
  unfold Int64.in_range, Int64.wrap, Int64.min_int, Int64.max_int.
  intros Hz. rewrite Z.mod_small by lia. lia.
Qed.

(** ** Sequencing *)

Lemma times_add {St} (a b : nat) (body : go St unit) (s : St) :
  times (a + b) body s =
  match times a body s with
  | Done _ s' => times b body s'
  | Panic msg s' => Panic msg s'
  end.
Proof.
  revert s. induction a as [|a IH]; intros s; simpl; [reflexivity|].
  unfold go_bind. destruct (body s) as [[] s'|msg s']; [apply IH|reflexivity].
Qed.

Lemma times_S_Done {St} (n : nat) (body : go St unit) (s s' : St) :
  body s = Done tt s' -> times (S n) body s = times n body s'.
Proof. intros H. simpl. unfold go_bind. now rewrite H. Qed.

(** ** The active-threads oscillator: one tick *)

Section Tick.

Variable rmc : randomMetricCollector.
Variable cfg : Config.
Variable i : instrument.
Hypothesis registered_handle : rmc_threadsActive rmc = Some i.

Let B := Int64.wrap (ThreadsActiveUpperBound cfg).

Lemma tick_rising_below w :
  threadsBool w = true -> threadsActive w < B ->
  updateThreadsActive rmc cfg w =
  Done tt (stepped i 1 (Int64.wrap (threadsActive w + 1)) w).
Proof using registered_handle.
  intros Hb Hlt. unfold updateThreadsActive, go_bind, gets. rewrite Hb.
  fold B. destruct (Z.ltb_spec (threadsActive w) B); [|lia].
  rewrite registered_handle. reflexivity.
Qed.

Lemma tick_rising_top w :
  threadsBool w = true -> B <= threadsActive w ->
  updateThreadsActive rmc cfg w =
  Done tt (flipped (Int64.wrap (threadsActive w - 1)) false w).
Proof using Type.
  intros Hb Hge. unfold updateThreadsActive, go_bind, gets. rewrite Hb.
  fold B. destruct (Z.ltb_spec (threadsActive w) B); [lia|]. reflexivity.
Qed.

Lemma tick_falling_above w :
  threadsBool w = false -> 0 < threadsActive w ->
  updateThreadsActive rmc cfg w =
  Done tt (stepped i (-1) (Int64.wrap (threadsActive w - 1)) w).
Proof using registered_handle.
  intros Hb Hgt. unfold updateThreadsActive, go_bind, gets. rewrite Hb.
  destruct (Z.gtb_spec (threadsActive w) 0); [|lia].
  rewrite registered_handle. reflexivity.
Qed.

Lemma tick_falling_bottom w :
  threadsBool w = false -> threadsActive w <= 0 ->
  updateThreadsActive rmc cfg w =
  Done tt (flipped (Int64.wrap (threadsActive w + 1)) true w).
Proof using Type.
  intros Hb Hle. unfold updateThreadsActive, go_bind, gets. rewrite Hb.
  destruct (Z.gtb_spec (threadsActive w) 0); [lia|]. reflexivity.
Qed.

End Tick.

(** ** The oscillator depends on its own state only *)

Ltac tick_unfold :=
  unfold tick_view, emitted, updateThreadsActive, go_bind, gets, modify,
    handle_Add, panic, osc; simpl.

Lemma tick_view_congruence rmc1 rmc2 cfg1 cfg2 w1 w2 :
  osc w1 = osc w2 ->
  ThreadsActiveUpperBound cfg1 = ThreadsActiveUpperBound cfg2 ->
  rmc_threadsActive rmc1 = rmc_threadsActive rmc2 ->
  tick_view rmc1 cfg1 w1 = tick_view rmc2 cfg2 w2.
Proof.
  intros Hosc HB Hh. unfold osc in Hosc. injection Hosc as Hv Hb.
  tick_unfold. rewrite Hb, HB, Hh.
  destruct (threadsBool w2) eqn:Hb2; cbn beta; rewrite Hv.
  - destruct (threadsActive w2 <? _); cbn beta;
      [destruct (rmc_threadsActive rmc2)|]; simpl;
      by rewrite ?drop_app_length, ?drop_all, ?Hv, ?Hb, ?Hb2.
  - destruct (threadsActive w2 >? 0); cbn beta;
      [destruct (rmc_threadsActive rmc2)|]; simpl;
      by rewrite ?drop_app_length, ?drop_all, ?Hv, ?Hb, ?Hb2.
Qed.

Lemma tick_keeps_seed rmc cfg w :
  rand_seed (final_state (updateThreadsActive rmc cfg w)) = rand_seed w.
Proof.
  tick_unfold. destruct (threadsBool w); cbn beta.
  - destruct (_ <? _); [|reflexivity]. by destruct (rmc_threadsActive rmc).
  - destruct (_ >? _); [|reflexivity]. by destruct (rmc_threadsActive rmc).
Qed.

(** ** Runs of the oscillator *)

Ltac int64_lia :=
  unfold Int64.in_range, Int64.min_int, Int64.max_int in *; lia.

Lemma ticks_S n rmc cfg w :
  ticks (S n) rmc cfg w =
  match updateThreadsActive rmc cfg w with
  | Done _ w' => ticks n rmc cfg w'
  | Panic msg w' => Panic msg w'
  end.
Proof. reflexivity. Qed.

Lemma ticks_add a b rmc cfg w :
  ticks (a + b) rmc cfg w =
  match ticks a rmc cfg w with
  | Done _ w' => ticks b rmc cfg w'
  | Panic msg w' => Panic msg w'
  end.
Proof. apply times_add. Qed.

Section Runs.

Variable rmc : randomMetricCollector.
Variable cfg : Config.

Let B := ThreadsActiveUpperBound cfg.

Hypothesis B_range : 0 <= B <= Int64.max_int.

Lemma wrap_bound : Int64.wrap (ThreadsActiveUpperBound cfg) = B.
Proof using B_range. apply wrap_id. int64_lia. Qed.

(** A tick never takes the value out of [[0, B]] when [B >= 1], whether
    it returns or panics on a nil handle. *)
Lemma tick_in_range w :
  1 <= B ->
  0 <= threadsActive w <= B ->
  0 <= threadsActive (final_state (updateThreadsActive rmc cfg w)) <= B.
Proof using B_range.
  intros HB Hw. unfold updateThreadsActive, go_bind, gets.
  rewrite wrap_bound. destruct (threadsBool w); cbn beta.
  - destruct (Z.ltb_spec (threadsActive w) B); cbn beta.
    + destruct (rmc_threadsActive rmc); simpl; [|lia].
      rewrite wrap_id by int64_lia. lia.
    + simpl. rewrite wrap_id by int64_lia. lia.
  - destruct (Z.gtb_spec (threadsActive w) 0); cbn beta.
    + destruct (rmc_threadsActive rmc); simpl; [|lia].
      rewrite wrap_id by int64_lia. lia.
    + simpl. rewrite wrap_id by int64_lia. lia.
Qed.

Lemma ticks_in_range n w :
  1 <= B ->
  0 <= threadsActive w <= B ->
  0 <= threadsActive (final_state (ticks n rmc cfg w)) <= B.
Proof using B_range.
  intros HB. revert w. induction n as [|n IH]; intros w Hw; [exact Hw|].
  rewrite ticks_S. pose proof (tick_in_range w HB Hw) as Hstep.
  destruct (updateThreadsActive rmc cfg w) as [[] w'|msg w']; simpl in *.
  - apply IH, Hstep.
  - exact Hstep.
Qed.

Variable i : instrument.
Hypothesis registered_handle : rmc_threadsActive rmc = Some i.

(** With the instrument registered a tick always returns. *)
Lemma tick_returns w : exists w', updateThreadsActive rmc cfg w = Done tt w'.
Proof using registered_handle.
  destruct (threadsBool w) eqn:Hb.
  - destruct (Z.lt_ge_cases (threadsActive w)
                (Int64.wrap (ThreadsActiveUpperBound cfg))).
    + eexists. by apply (tick_rising_below rmc cfg i).
    + eexists. by apply tick_rising_top.
  - destruct (Z.lt_ge_cases 0 (threadsActive w)).
    + eexists. by apply (tick_falling_above rmc cfg i).
    + eexists. by apply tick_falling_bottom.
Qed.

Lemma ticks_return n w : exists w', ticks n rmc cfg w = Done tt w'.
Proof using registered_handle.
  revert w. induction n as [|n IH]; intros w; [by eexists|].
  rewrite ticks_S. destruct (tick_returns w) as [w' ->]. apply IH.
Qed.

(** [k] rising ticks below the bound. *)
Lemma rising_run k w :
  threadsBool w = true ->
  0 <= threadsActive w ->
  threadsActive w + Z.of_nat k <= B ->
  exists w', ticks k rmc cfg w = Done tt w' /\
             osc w' = (threadsActive w + Z.of_nat k, true).
Proof using registered_handle B_range.
  revert w. induction k as [|k IH]; intros w Hb H0 Hk.
  - eexists; split; [reflexivity|]. unfold osc. rewrite Hb. f_equal. lia.
  - rewrite ticks_S, (tick_rising_below rmc cfg i) by (rewrite ?wrap_bound; auto; lia).
    rewrite wrap_id by int64_lia.
    destruct (IH (stepped i 1 (threadsActive w + 1) w)) as (w' & Hrun & Hosc);
      simpl; [done|lia|lia|].
    exists w'. split; [exact Hrun|]. rewrite Hosc. simpl. f_equal. lia.
Qed.

(** [k] falling ticks above zero. *)
Lemma falling_run k w :
  threadsBool w = false ->
  Z.of_nat k <= threadsActive w <= Int64.max_int ->
  exists w', ticks k rmc cfg w = Done tt w' /\
             osc w' = (threadsActive w - Z.of_nat k, false).
Proof using registered_handle.
  revert w. induction k as [|k IH]; intros w Hb Hk.
  - eexists; split; [reflexivity|]. unfold osc. rewrite Hb. f_equal. lia.
  - rewrite ticks_S, (tick_falling_above rmc cfg i) by (auto; lia).
    rewrite wrap_id by int64_lia.
    destruct (IH (stepped i (-1) (threadsActive w - 1) w)) as (w' & Hrun & Hosc);
      simpl; [done|lia|].
    exists w'. split; [exact Hrun|]. rewrite Hosc. simpl. f_equal. lia.
Qed.

(** Runs from worlds that agree on the oscillator state agree on it at
    the end. *)
Lemma ticks_osc_congruence n w1 w2 w1' :
  osc w1 = osc w2 ->
  ticks n rmc cfg w1 = Done tt w1' ->
  exists w2', ticks n rmc cfg w2 = Done tt w2' /\ osc w2' = osc w1'.
Proof using registered_handle.
  revert w1 w2. induction n as [|n IH]; intros w1 w2 Hosc Hrun.
  - injection Hrun as <-. by exists w2.
  - rewrite ticks_S in Hrun |- *.
    pose proof (tick_view_congruence rmc rmc cfg cfg w1 w2 Hosc eq_refl eq_refl) as Hview.
    unfold tick_view in Hview.
    destruct (tick_returns w1) as [u1 H1], (tick_returns w2) as [u2 H2].
    rewrite H1 in Hrun, Hview. rewrite H2 in Hview |- *. simpl in Hview.
    apply (IH u1 u2); [congruence|exact Hrun].
Qed.

(** From [(0, Rising)], [2B] ticks end in [(0, Falling)]. *)
Lemma full_wave w :
  1 <= B ->
  osc w = (0, true) ->
  exists w', ticks (Z.to_nat (2 * B)) rmc cfg w = Done tt w' /\
             osc w' = (0, false).
Proof using registered_handle B_range.
  intros HB Hosc. unfold osc in Hosc. injection Hosc as Hv Hb.
  replace (Z.to_nat (2 * B)) with (Z.to_nat B + (1 + Z.to_nat (B - 1)))%nat by lia.
  rewrite ticks_add.
  destruct (rising_run (Z.to_nat B) w) as (w1 & -> & Ho1); [done|lia|lia|].
  rewrite Hv, Z2Nat.id in Ho1 by lia. unfold osc in Ho1. injection Ho1 as Hv1 Hb1.
  rewrite ticks_add. change (ticks 1 rmc cfg w1) with
    (match updateThreadsActive rmc cfg w1 with
     | Done _ w' => Done tt w' | Panic msg w' => Panic msg w' end).
  rewrite tick_rising_top by (rewrite ?wrap_bound; auto; lia).
  rewrite wrap_id by int64_lia.
  destruct (falling_run (Z.to_nat (B - 1)) (flipped (threadsActive w1 - 1) false w1))
    as (w2 & -> & Ho2); simpl; [done|int64_lia|].
  exists w2. split; [reflexivity|]. rewrite Ho2. simpl. f_equal. lia.
Qed.

End Runs.

(** ** The oscillator's transition function (claims C1, C2, C10) *)

(** C1.  The claim wants every tick, boundary ticks included, to send one
    [+1] or [-1] to the up-down-counter through [Add].  The code is
    evaluated here at the two boundary states for the bound 3: at
    [(3, Rising)] it moves to [(2, Falling)] and at [(0, Falling)] it moves
    to [(1, Rising)], as the claim says, but in both cases without any call
    to [Add]; away from the boundary (at [(1, Rising)] and [(2, Falling)])
    it does send the [+1] and the [-1]. *)
Theorem boundary_tick_makes_no_Add :
  let cfg := config_with 100 3 100 in
  let at_state v s :=
    {| threadsActive := v; threadsBool := s; rand_seed := 0;
       calls := []; registered := []; stdout := [] |} in
  let sent v s cs :=
    {| threadsActive := v; threadsBool := s; rand_seed := 0;
       calls := cs; registered := []; stdout := [] |} in
  updateThreadsActive full_collector cfg (at_state 3 true)
    = Done tt (sent 2 false [])
  /\ updateThreadsActive full_collector cfg (at_state 0 false)
    = Done tt (sent 1 true [])
  /\ updateThreadsActive full_collector cfg (at_state 1 true)
    = Done tt (sent 2 true [Add threads_instrument 1])
  /\ updateThreadsActive full_collector cfg (at_state 2 false)
    = Done tt (sent 1 false [Add threads_instrument (-1)]).
Proof. repeat split; vm_compute; reflexivity. Qed.

(** C2.  The scenario of the claim, run on the code: bound 3, start at
    [(0, Rising)], seven ticks.  The values are the claimed 1, 2, 3, 2, 1,
    0, 1, but ticks 4 and 7 send nothing where the claim has [-1] and
    [+1]; after six ticks the counter has accumulated 1 while
    [threadsActive] is 0. *)
Theorem seven_ticks_bound_three :
  let cfg := config_with 100 3 100 in
  let up := [Add threads_instrument 1] in
  let down := [Add threads_instrument (-1)] in
  tick_trace 7 full_collector cfg (init_world 0)
    = [(up, 1); (up, 2); (up, 3); ([], 2); (down, 1); (down, 0); ([], 1)]
  /\ accumulated threads_instrument
       (calls (final_state (ticks 6 full_collector cfg (init_world 0)))) = 1
  /\ threadsActive (final_state (ticks 6 full_collector cfg (init_world 0))) = 0.
Proof. repeat split; vm_compute; reflexivity. Qed.

(** C10.  The tick is a function of the oscillator state, the bound and the
    counter's handle alone: two runs that agree on these, whatever else
    differs in their worlds (state of the random source, earlier calls,
    output, registered callbacks) and configurations, agree on whether the
    tick returns, on the calls it makes (the same delta or the same absence
    of one) and on the successor state; and the tick leaves the random
    source as it found it. *)
Theorem tick_deterministic rmc1 rmc2 cfg1 cfg2 w1 w2 :
  osc w1 = osc w2 ->
  ThreadsActiveUpperBound cfg1 = ThreadsActiveUpperBound cfg2 ->
  rmc_threadsActive rmc1 = rmc_threadsActive rmc2 ->
  let o1 := updateThreadsActive rmc1 cfg1 w1 in
  let o2 := updateThreadsActive rmc2 cfg2 w2 in
  returned o1 = returned o2
  /\ emitted w1 o1 = emitted w2 o2
  /\ osc (final_state o1) = osc (final_state o2)
  /\ rand_seed (final_state o1) = rand_seed w1
  /\ rand_seed (final_state o2) = rand_seed w2.
Proof.
  intros Hosc HB Hh o1 o2.
  pose proof (tick_view_congruence rmc1 rmc2 cfg1 cfg2 w1 w2 Hosc HB Hh) as Hview.
  unfold tick_view in Hview. fold o1 o2 in Hview.
  injection Hview as Hr He Hv Hb.
  repeat split; try assumption.
  - unfold osc. by rewrite Hv, Hb.
  - apply tick_keeps_seed.
  - apply tick_keeps_seed.
Qed.

(** Two worlds that share the oscillator state [(0, Rising)] and nothing
    else, under two configurations that share the bound 3 only. *)
Lemma tick_deterministic_witness :
  let w1 := init_world 7 in
  let w2 := {| threadsActive := 0; threadsBool := true; rand_seed := 99;
               calls := [Observe cpu_instrument 42]; registered := [];
               stdout := ["CPU Usage asked by SDK"] |} in
  let o1 := updateThreadsActive full_collector (config_with 100 3 100) w1 in
  let o2 := updateThreadsActive full_collector (config_with 5 3 0) w2 in
  returned o1 = returned o2
  /\ emitted w1 o1 = emitted w2 o2
  /\ osc (final_state o1) = osc (final_state o2)
  /\ rand_seed (final_state o1) = rand_seed w1
  /\ rand_seed (final_state o2) = rand_seed w2.
Proof.
  apply (tick_deterministic full_collector full_collector
           (config_with 100 3 100) (config_with 5 3 0));
    reflexivity.
Defined.

(** ** Range and period of the wave (claims C3, C6, C7) *)

(** C6.  For every bound [B] with [1 <= B] (an [int64]) and every number of
    ticks from a world in state [(0, Rising)], the value of [threadsActive]
    at the end lies in [[0, B]]; with the counter registered all the ticks
    return. *)
Theorem threadsActive_stays_in_range rmc cfg (n : nat) w0 :
  1 <= ThreadsActiveUpperBound cfg <= Int64.max_int ->
  osc w0 = (0, true) ->
  let o := ticks n rmc cfg w0 in
  0 <= threadsActive (final_state o) <= ThreadsActiveUpperBound cfg
  /\ (is_Some (rmc_threadsActive rmc) -> returned o = true).
Proof.
  intros HB Hosc o. unfold osc in Hosc. injection Hosc as Hv Hb. split.
  - apply ticks_in_range; lia.
  - intros [i Hi]. subst o.
    destruct (ticks_return rmc cfg i Hi n w0) as [w' ->]. reflexivity.
Qed.

Lemma threadsActive_stays_in_range_witness :
  let o := ticks 5 full_collector (config_with 100 3 100) (init_world 0) in
  0 <= threadsActive (final_state o) <= 3
  /\ (is_Some (Some threads_instrument) -> returned o = true).
Proof.
  apply (threadsActive_stays_in_range full_collector (config_with 100 3 100)
           5 (init_world 0)).
  - simpl. int64_lia.
  - reflexivity.
Defined.

(** C7, as claimed, fails already for the bound 1: two ticks from
    [(0, Rising)] end in [(0, Falling)]. *)
Lemma two_ticks_do_not_return_to_start :
  osc (final_state (ticks (Z.to_nat (2 * 1)) full_collector
                      (config_with 100 1 100) (init_world 0)))
  <> (0, true).
Proof. vm_compute. discriminate. Qed.

(** C7, amended.  For every bound [B >= 1], [2B] ticks from [(0, Rising)]
    bring the value back to 0 with the direction Falling, and from the
    first tick on the wave has period [2B]: the oscillator state after
    [n + 2B] ticks is the state after [n] ticks, for every [n >= 1]. *)
Theorem wave_period rmc cfg i w0 :
  rmc_threadsActive rmc = Some i ->
  1 <= ThreadsActiveUpperBound cfg <= Int64.max_int ->
  osc w0 = (0, true) ->
  let period := Z.to_nat (2 * ThreadsActiveUpperBound cfg) in
  (exists w, ticks period rmc cfg w0 = Done tt w /\ osc w = (0, false))
  /\ forall n, (1 <= n)%nat ->
       exists w1 w2,
         ticks n rmc cfg w0 = Done tt w1
         /\ ticks (n + period) rmc cfg w0 = Done tt w2
         /\ osc w2 = osc w1.
Proof.
  intros Hi HB Hosc period.
  assert (HB0 : 0 <= ThreadsActiveUpperBound cfg <= Int64.max_int) by lia.
  destruct (full_wave rmc cfg HB0 i Hi w0 ltac:(lia) Hosc) as (wp & Hp & Hop).
  fold period in Hp. split; [by exists wp|].
  intros n Hn. destruct n as [|m]; [lia|].
  (* the first tick from the start, and the tick after a whole period *)
  assert (Hfirst : exists u, updateThreadsActive rmc cfg w0 = Done tt u
                             /\ osc u = (1, true)).
  { unfold osc in Hosc. injection Hosc as Hv Hb. eexists. split.
    - apply (tick_rising_below rmc cfg i Hi); [done|].
      rewrite wrap_id by int64_lia. lia.
    - unfold osc. simpl. rewrite Hv, Hb. reflexivity. }
  assert (Hagain : exists u, updateThreadsActive rmc cfg wp = Done tt u
                             /\ osc u = (1, true)).
  { unfold osc in Hop. injection Hop as Hv Hb. eexists. split.
    - apply tick_falling_bottom; [done|lia].
    - unfold osc. simpl. rewrite Hv. reflexivity. }
  destruct Hfirst as (u1 & Hu1 & Ho1), Hagain as (u2 & Hu2 & Ho2).
  destruct (ticks_return rmc cfg i Hi m u1) as [w1 Hw1].
  destruct (ticks_osc_congruence rmc cfg i Hi m u1 u2 w1) as (w2 & Hw2 & Ho);
    [congruence|exact Hw1|].
  exists w1, w2. repeat split.
  - by rewrite ticks_S, Hu1.
  - replace (S m + period)%nat with (period + S m)%nat by lia.
    by rewrite ticks_add, Hp, ticks_S, Hu2.
  - exact Ho.
Qed.

Lemma wave_period_witness :
  let cfg := config_with 100 3 100 in
  let period := Z.to_nat (2 * ThreadsActiveUpperBound cfg) in
  (exists w, ticks period full_collector cfg (init_world 0) = Done tt w
             /\ osc w = (0, false))
  /\ forall n, (1 <= n)%nat ->
       exists w1 w2,
         ticks n full_collector cfg (init_world 0) = Done tt w1
         /\ ticks (n + period) full_collector cfg (init_world 0) = Done tt w2
         /\ osc w2 = osc w1.
Proof.
  apply (wave_period full_collector (config_with 100 3 100)
           threads_instrument (init_world 0)).
  - reflexivity.
  - simpl. int64_lia.
  - reflexivity.
Defined.

(** C3, as claimed, fails at the first tick: with the bound 0 the value
    does not stay 0. *)
Lemma degenerate_bound_value_leaves_zero :
  ~ (forall n : nat,
       threadsActive (final_state (ticks n full_collector
                                     (config_with 100 0 100) (init_world 0)))
       = 0).
Proof. intros H. specialize (H 1%nat). vm_compute in H. discriminate. Qed.

Lemma degenerate_run rmc cfg (n : nat) :
  ThreadsActiveUpperBound cfg = 0 ->
  forall w,
    (osc w = (0, true) ->
     exists w', ticks n rmc cfg w = Done tt w' /\
                osc w' = if Nat.even n then (0, true) else (-1, false))
    /\ (osc w = (-1, false) ->
        exists w', ticks n rmc cfg w = Done tt w' /\
                   osc w' = if Nat.even n then (-1, false) else (0, true)).
Proof.
  intros HB. induction n as [|n IH]; intros w.
  - split; intros Hosc; by exists w.
  - rewrite Nat.even_succ, <- Nat.negb_even. split; intros Hosc;
      unfold osc in Hosc; injection Hosc as Hv Hb; rewrite ticks_S.
    + rewrite tick_rising_top by (rewrite ?HB, ?Hv; done).
      rewrite Hv.
      destruct (IH (flipped (Int64.wrap (0 - 1)) false w)) as [_ Hrun].
      destruct Hrun as (w' & -> & Ho); [reflexivity|].
      exists w'. split; [reflexivity|]. rewrite Ho. by destruct (Nat.even n).
    + rewrite tick_falling_bottom by (rewrite ?Hv; done).
      rewrite Hv.
      destruct (IH (flipped (Int64.wrap (-1 + 1)) true w)) as [Hrun _].
      destruct Hrun as (w' & -> & Ho); [reflexivity|].
      exists w'. split; [reflexivity|]. rewrite Ho. by destruct (Nat.even n).
Qed.

(** C3, amended.  For the bound 0, from [(0, Rising)], every tick returns
    and flips the direction, and the value alternates with it: after an odd
    number of ticks the state is [(-1, Falling)], after an even number it is
    [(0, Rising)]. *)
Theorem degenerate_bound_alternates rmc cfg w0 (n : nat) :
  ThreadsActiveUpperBound cfg = 0 ->
  osc w0 = (0, true) ->
  exists w, ticks n rmc cfg w0 = Done tt w /\
            osc w = if Nat.even n then (0, true) else (-1, false).
Proof.
  intros HB Hosc. by apply (degenerate_run rmc cfg n HB w0).
Qed.

Lemma degenerate_bound_alternates_witness :
  exists w, ticks 3 full_collector (config_with 100 0 100) (init_world 0)
            = Done tt w /\
            osc w = if Nat.even 3 then (0, true) else (-1, false).
Proof.
  apply (degenerate_bound_alternates full_collector (config_with 100 0 100)
           (init_world 0) 3); reflexivity.
Defined.

(** ** The random bounded generators (claim C4) *)

(** C4, as claimed, fails for the bound 0: the callback does not come back
    with an error and no observation, it panics. *)
Lemma zero_bound_callback_does_not_return :
  let w := init_world 0 in
  let o := cpuUsageCallback lcg full_collector (config_with 100 10 0) w in
  ~ (returned o = true /\ emitted w o = []).
Proof. vm_compute. intros [H _]. discriminate. Qed.

Lemma rand_Intn_positive rng n w :
  0 < n ->
  rand_Intn rng n w =
  Done (Intn_value rng (rand_seed w) n)
       (set_rand_seed (Intn_advance rng (rand_seed w)) w).
Proof.
  intros Hn. unfold rand_Intn. destruct (Z.leb_spec n 0); [lia|reflexivity].
Qed.

Lemma rand_Intn_not_positive rng n w :
  n <= 0 -> rand_Intn rng n w = Panic "invalid argument to Intn" w.
Proof.
  intros Hn. unfold rand_Intn. destruct (Z.leb_spec n 0); [reflexivity|lia].
Qed.

(** C4, amended.  An invocation of the CPU-usage or heap-size callback
    whose instrument is registered, with an upper bound above 0, draws one
    number [v] with [0 <= v < upperBound], calls [Observe] once with it and
    prints its line; with an upper bound of 0 (or below) it panics inside
    [rand.Intn] before any [Observe], leaving the world as it was. *)
Theorem callback_draws_below_bound rng c w i :
  callback_handle c = Some i ->
  (0 < callback_bound c ->
   exists v,
     0 <= v < callback_bound c /\
     invoke rng c w =
     Done tt (push_line (callback_line c)
                (push_call (Observe i v)
                   (set_rand_seed (Intn_advance rng (rand_seed w)) w))))
  /\ (callback_bound c <= 0 ->
      invoke rng c w = Panic "invalid argument to Intn" w).
Proof.
  intros Hh. split.
  - intros Hpos. exists (Intn_value rng (rand_seed w) (callback_bound c)).
    split; [by apply Intn_range|].
    destruct c as [rmc cfg|rmc cfg]; simpl in *;
      unfold cpuUsageCallback, heapSizeCallback, go_bind;
      rewrite Z.sub_0_r, rand_Intn_positive by exact Hpos;
      rewrite Hh, Z.add_0_r; reflexivity.
  - intros Hle.
    destruct c as [rmc cfg|rmc cfg]; simpl in *;
      unfold cpuUsageCallback, heapSizeCallback, go_bind;
      rewrite Z.sub_0_r, rand_Intn_not_positive by exact Hle; reflexivity.
Qed.

Lemma callback_draws_below_bound_witness :
  let c := HeapSizeCallback full_collector (config_with 100 10 100) in
  let w := init_world 12345 in
  (0 < callback_bound c ->
   exists v,
     0 <= v < callback_bound c /\
     invoke lcg c w =
     Done tt (push_line (callback_line c)
                (push_call (Observe heap_instrument v)
                   (set_rand_seed (Intn_advance lcg (rand_seed w)) w))))
  /\ (callback_bound c <= 0 ->
      invoke lcg c w = Panic "invalid argument to Intn" w).
Proof.
  apply (callback_draws_below_bound lcg
           (HeapSizeCallback full_collector (config_with 100 10 100))
           (init_world 12345) heap_instrument).
  reflexivity.
Defined.

(** ** The loop body and the callbacks: when they return *)

Lemma syncTick_eq rmc cfg it w :
  rmc_timeAlive rmc = Some it ->
  syncTick rmc cfg w =
  match updateThreadsActive rmc cfg
          (push_call (Add it (TimeAliveIncrementer cfg)) w) with
  | Done _ w' =>
      Done tt (push_line "Updating time alive && threads active..." w')
  | Panic msg w' => Panic msg w'
  end.
Proof.
  intros Ht. unfold syncTick, updateTimeAlive, go_bind. rewrite Ht. simpl.
  by destruct (updateThreadsActive rmc cfg _) as [[] w'|msg w'].
Qed.

Lemma syncLoop_S n rmc cfg w :
  syncLoop (S n) rmc cfg w =
  match syncTick rmc cfg w with
  | Done _ w' => syncLoop n rmc cfg w'
  | Panic msg w' => Panic msg w'
  end.
Proof. reflexivity. Qed.

Lemma syncLoop_returns rmc cfg it ith n w :
  rmc_timeAlive rmc = Some it ->
  rmc_threadsActive rmc = Some ith ->
  exists w', syncLoop n rmc cfg w = Done tt w'.
Proof.
  intros Ht Hth. revert w. induction n as [|n IH]; intros w; [by eexists|].
  rewrite syncLoop_S, (syncTick_eq rmc cfg it w Ht).
  destruct (tick_returns rmc cfg ith Hth
              (push_call (Add it (TimeAliveIncrementer cfg)) w)) as [t ->].
  apply IH.
Qed.

Lemma invoke_draw rng c i w :
  callback_handle c = Some i ->
  0 < callback_bound c ->
  invoke rng c w =
  Done tt (push_line (callback_line c)
             (push_call (Observe i (Intn_value rng (rand_seed w) (callback_bound c)))
                (set_rand_seed (Intn_advance rng (rand_seed w)) w))).
Proof.
  intros Hh Hpos.
  destruct c as [rmc cfg|rmc cfg]; simpl in *;
    unfold cpuUsageCallback, heapSizeCallback, go_bind;
    rewrite Z.sub_0_r, rand_Intn_positive by exact Hpos;
    rewrite Hh, Z.add_0_r; reflexivity.
Qed.

(** ** Registration of the instruments (claim C5) *)

(** C5, as claimed, fails.  A meter reports an error for "Time Alive" and
    hands out the counter with it.  The constructor prints the error and
    returns the collector; the callback registrations of
    [UpdateMetricsClient] go through; every pass of the loop it starts
    returns, however many there are, and so does every invocation of the
    two registered callbacks: the failed registration stops nothing. *)
Lemma registration_error_is_not_fatal :
  let m := complaining_meter "Time Alive" in
  let cfg := config_with 100 10 100 in
  let printed := {| threadsActive := 0; threadsBool := true; rand_seed := 0;
                    calls := []; registered := [];
                    stdout := ["instrument flagged: Time Alive"] |} in
  let running := {| threadsActive := 0; threadsBool := true; rand_seed := 0;
                    calls := [];
                    registered := [CpuUsageCallback full_collector cfg;
                                   HeapSizeCallback full_collector cfg];
                    stdout := ["instrument flagged: Time Alive"] |} in
  snd (new_instrument m SyncCounter "Time Alive"
         "Total amount of time that the application has been alive" "s")
    = Some "instrument flagged: Time Alive"
  /\ NewRandomMetricCollector m (init_world 0) = Done full_collector printed
  /\ UpdateMetricsClient m full_collector cfg printed = Done tt running
  /\ (forall (n : nat) w, returned (syncLoop n full_collector cfg w) = true)
  /\ (forall c w, c ∈ registered running -> returned (invoke lcg c w) = true).
Proof.
  intros m cfg printed running.
  split; [reflexivity|]. split; [reflexivity|]. split; [reflexivity|]. split.
  - intros n w.
    destruct (syncLoop_returns full_collector cfg time_instrument
                threads_instrument n w eq_refl eq_refl) as [w' ->].
    reflexivity.
  - intros c w Hc. subst running. simpl in Hc.
    apply elem_of_cons in Hc as [->|Hc].
    { rewrite (invoke_draw lcg (CpuUsageCallback full_collector cfg)
                 cpu_instrument w); [reflexivity|reflexivity|simpl; lia]. }
    apply elem_of_cons in Hc as [->|Hc].
    { rewrite (invoke_draw lcg (HeapSizeCallback full_collector cfg)
                 heap_instrument w); [reflexivity|reflexivity|simpl; lia]. }
    by apply elem_of_nil in Hc.
Qed.

(** C5, amended.  Whatever the meter answers, [NewRandomMetricCollector]
    returns: it asks for the four instruments in the order heap size,
    threads active, time alive, CPU usage, prints the error of each
    registration that fails, and stores in each field the handle the meter
    gave back for it, with or without an error. *)
Theorem registration_errors_are_printed meter w :
  let heap := new_instrument meter AsyncUpDownCounter "Total Heap Size"
                "The current total heap size" "1" in
  let threads := new_instrument meter SyncUpDownCounter "Threads Active"
                   "The total amount of threads active" "1" in
  let time := new_instrument meter SyncCounter "Time Alive"
                "Total amount of time that the application has been alive" "s" in
  let cpu := new_instrument meter AsyncGauge "CPU Usage"
               "Cpu usage percent" "%" in
  NewRandomMetricCollector meter w =
  Done {| rmc_timeAlive := fst time; rmc_cpuUsage := fst cpu;
          rmc_heapSize := fst heap; rmc_threadsActive := fst threads |}
       (foldl (fun w' line => push_line line w') w
          (omap snd [heap; threads; time; cpu])).
Proof.
  intros heap threads time cpu.
  unfold NewRandomMetricCollector, registerHeapSize, registerThreadsActive,
    registerTimeAlive, registerCpuUsage, register, go_bind.
  fold heap threads time cpu.
  destruct heap as [h1 [e1|]], threads as [h2 [e2|]],
    time as [h3 [e3|]], cpu as [h4 [e4|]]; reflexivity.
Qed.

(** ** The configuration loader (claims C8, C9) *)

Import Main.

Lemma getDefaultConfig_documented c : getDefaultConfig c = documented_default.
Proof. reflexivity. Qed.

(** C8.  When config.yaml is missing, [getConf] returns the documented
    default struct; when the file is there but is not a YAML document, or
    [yaml.Unmarshal] fails on it for any other reason, it returns the same
    struct, whatever the failed decoding has left in the fields. *)
Theorem failed_load_gives_defaults yaml fs c :
  (fs !! "config.yaml" = None ->
   getConf yaml fs c = documented_default)
  /\ (forall data,
        fs !! "config.yaml" = Some data ->
        parse yaml data = None ->
        getConf yaml fs c = documented_default)
  /\ (forall data,
        fs !! "config.yaml" = Some data ->
        is_Some (snd (Unmarshal yaml data c)) ->
        getConf yaml fs c = documented_default).
Proof.
  assert (Herr : forall data,
             fs !! "config.yaml" = Some data ->
             is_Some (snd (Unmarshal yaml data c)) ->
             getConf yaml fs c = documented_default).
  { intros data Hfile [e He]. unfold getConf, ReadFile. rewrite Hfile.
    destruct (Unmarshal yaml data c) as [c' err]. simpl in He. subst err.
    apply getDefaultConfig_documented. }
  repeat split.
  - intros Hfile. unfold getConf, ReadFile. rewrite Hfile.
    apply getDefaultConfig_documented.
  - intros data Hfile Hparse. apply (Herr data Hfile).
    unfold Unmarshal. rewrite Hparse. by eexists.
  - exact Herr.
Qed.

(** No file at all; a file without a key; a file whose bound is not a
    number. *)
Lemma failed_load_gives_defaults_witness :
  getConf one_line_yaml ∅ zero_conf = documented_default
  /\ getConf one_line_yaml {[ "config.yaml" := "not a mapping" ]} zero_conf
     = documented_default
  /\ getConf one_line_yaml
       {[ "config.yaml" := "RandomCpuUsageUpperBound: many" ]} zero_conf
     = documented_default.
Proof.
  pose proof (failed_load_gives_defaults one_line_yaml ∅ zero_conf)
    as (Hmissing & _ & _).
  pose proof (failed_load_gives_defaults one_line_yaml
                {[ "config.yaml" := "not a mapping" ]} zero_conf)
    as (_ & Hmalformed & _).
  pose proof (failed_load_gives_defaults one_line_yaml
                {[ "config.yaml" := "RandomCpuUsageUpperBound: many" ]}
                zero_conf)
    as (_ & _ & Hmistyped).
  split; [|split].
  - apply Hmissing. reflexivity.
  - apply (Hmalformed "not a mapping"); reflexivity.
  - apply (Hmistyped "RandomCpuUsageUpperBound: many"); [reflexivity|].
    vm_compute. by eexists.
Defined.

Lemma decode_field_absent {A} yaml (conv : node yaml -> option A) m key old :
  m !! key = None -> decode_field yaml conv m key old = (old, true).
Proof. intros H. unfold decode_field. by rewrite H. Qed.

(** C9.  When config.yaml is read and decoded without error, [getConf]
    returns the struct exactly as the decoding left it: starting from the
    zero struct of [var c conf], every field whose key is absent from the
    document has its zero value, the empty string for [Host] and [Port] and
    0 for the incrementer and the three upper bounds, not the default. *)
Theorem parsed_file_is_not_defaulted yaml fs data m :
  fs !! "config.yaml" = Some data ->
  parse yaml data = Some m ->
  snd (decode yaml m zero_conf) = None ->
  let c := getConf yaml fs zero_conf in
  c = fst (decode yaml m zero_conf)
  /\ (m !! "Host" = None -> Host c = "")
  /\ (m !! "Port" = None -> Port c = "")
  /\ (m !! "RandomTimeAliveIncrementer" = None -> TimeAliveIncrementer c = 0)
  /\ (m !! "RandomTotalHeapSizeUpperBound" = None ->
      TotalheapSizeUpperBound c = 0)
  /\ (m !! "RandomThreadsActiveUpperBound" = None ->
      ThreadsActiveUpperBound c = 0)
  /\ (m !! "RandomCpuUsageUpperBound" = None -> CpuUsageUpperBound c = 0).
Proof.
  intros Hfile Hparse Hok c.
  assert (Hc : c = fst (decode yaml m zero_conf)).
  { subst c. unfold getConf, ReadFile, Unmarshal. rewrite Hfile, Hparse.
    destruct (decode yaml m zero_conf) as [c' err]. simpl in Hok.
    by subst err. }
  split; [exact Hc|]. rewrite Hc. clear. unfold decode.
  destruct (decode_field yaml (as_string yaml) m "Host" _) as [host ok1] eqn:E1.
  destruct (decode_field yaml (as_string yaml) m "Port" _) as [port ok2] eqn:E2.
  destruct (decode_field yaml (as_int64 yaml) m "RandomTimeAliveIncrementer" _)
    as [incr ok3] eqn:E3.
  destruct (decode_field yaml (as_int64 yaml) m "RandomTotalHeapSizeUpperBound" _)
    as [heap ok4] eqn:E4.
  destruct (decode_field yaml (as_int64 yaml) m "RandomThreadsActiveUpperBound" _)
    as [thr ok5] eqn:E5.
  destruct (decode_field yaml (as_int64 yaml) m "RandomCpuUsageUpperBound" _)
    as [cpu ok6] eqn:E6.
  simpl. split; [|split; [|split; [|split; [|split]]]]; intros Habs.
  - rewrite decode_field_absent in E1 by done. by injection E1 as <- _.
  - rewrite decode_field_absent in E2 by done. by injection E2 as <- _.
  - rewrite decode_field_absent in E3 by done. by injection E3 as <- _.
  - rewrite decode_field_absent in E4 by done. by injection E4 as <- _.
  - rewrite decode_field_absent in E5 by done. by injection E5 as <- _.
  - rewrite decode_field_absent in E6 by done. by injection E6 as <- _.
Qed.

(** A well-formed file that sets the host only: the loader returns the host
    and zero everywhere else, so the threads bound is 0 and not 10. *)
Lemma parsed_file_is_not_defaulted_witness :
  let fs : gmap string string := {[ "config.yaml" := "Host: 127.0.0.1" ]} in
  let c := getConf one_line_yaml fs zero_conf in
  c = {| Host := "127.0.0.1"; Port := ""; TimeAliveIncrementer := 0;
         TotalheapSizeUpperBound := 0; ThreadsActiveUpperBound := 0;
         CpuUsageUpperBound := 0 |}
  /\ ThreadsActiveUpperBound c = 0.
Proof.
  pose proof (parsed_file_is_not_defaulted one_line_yaml
                {[ "config.yaml" := "Host: 127.0.0.1" ]}
                "Host: 127.0.0.1" {[ "Host" := "127.0.0.1" ]}
                eq_refl eq_refl eq_refl)
    as (Hc & _ & _ & _ & _ & Hthreads & _).
  split.
  - rewrite Hc. reflexivity.
  - apply Hthreads. reflexivity.
Defined.


(** * Further properties of the code *)

Import Collection.

(** ** The oscillator: shape of the wave *)

(** X1.  For a bound [B >= 1], from [(0, Rising)]: after [k <= B] ticks the
    state is [(k, Rising)], and after [B + k] ticks with [1 <= k <= B] it is
    [(B - k, Falling)]; the tick at the top is spent going down. *)
Theorem wave_shape rmc cfg i w0 (k : nat) :
  rmc_threadsActive rmc = Some i ->
  1 <= ThreadsActiveUpperBound cfg <= Int64.max_int ->
  osc w0 = (0, true) ->
  let B := ThreadsActiveUpperBound cfg in
  (Z.of_nat k <= B ->
   exists w, ticks k rmc cfg w0 = Done tt w /\ osc w = (Z.of_nat k, true))
  /\ (1 <= Z.of_nat k <= B ->
      exists w, ticks (Z.to_nat B + k) rmc cfg w0 = Done tt w /\
                osc w = (B - Z.of_nat k, false)).
Proof.
  intros Hi HB Hosc B. unfold osc in Hosc. injection Hosc as Hv Hb.
  assert (HB0 : 0 <= ThreadsActiveUpperBound cfg <= Int64.max_int) by lia.
  split.
  - intros Hk.
    destruct (rising_run rmc cfg HB0 i Hi k w0) as (w & Hrun & Ho);
      [done|lia|fold B; lia|].
    exists w. split; [exact Hrun|]. rewrite Ho, Hv. f_equal.
  - intros Hk. rewrite ticks_add.
    destruct (rising_run rmc cfg HB0 i Hi (Z.to_nat B) w0) as (w1 & -> & Ho1);
      [done|lia|fold B; lia|].
    rewrite Hv, Z2Nat.id in Ho1 by (subst B; lia).
    unfold osc in Ho1. injection Ho1 as Hv1 Hb1.
    destruct k as [|k']; [lia|].
    rewrite ticks_S, tick_rising_top
      by (rewrite ?(wrap_bound cfg HB0); auto; fold B; lia).
    rewrite wrap_id by (subst B; int64_lia).
    destruct (falling_run rmc cfg i Hi k' (flipped (threadsActive w1 - 1) false w1))
      as (w2 & -> & Ho2); simpl; [done|subst B; int64_lia|].
    exists w2. split; [reflexivity|]. rewrite Ho2. simpl. f_equal. lia.
Qed.

Lemma wave_shape_witness :
  let cfg := config_with 100 3 100 in
  let B := ThreadsActiveUpperBound cfg in
  (Z.of_nat 2 <= B ->
   exists w, ticks 2 full_collector cfg (init_world 0) = Done tt w /\
             osc w = (Z.of_nat 2, true))
  /\ (1 <= Z.of_nat 2 <= B ->
      exists w, ticks (Z.to_nat B + 2) full_collector cfg (init_world 0)
                = Done tt w /\
                osc w = (B - Z.of_nat 2, false)).
Proof.
  apply (wave_shape full_collector (config_with 100 3 100) threads_instrument
           (init_world 0) 2).
  - reflexivity.
  - simpl. int64_lia.
  - reflexivity.
Defined.

Lemma tick_leaves_start rmc cfg i w :
  rmc_threadsActive rmc = Some i ->
  1 <= ThreadsActiveUpperBound cfg <= Int64.max_int ->
  0 <= threadsActive w <= ThreadsActiveUpperBound cfg ->
  exists w', updateThreadsActive rmc cfg w = Done tt w' /\ osc w' <> (0, true).
Proof.
  intros Hi HB Hw.
  assert (HB0 : 0 <= ThreadsActiveUpperBound cfg <= Int64.max_int) by lia.
  pose proof (wrap_bound cfg HB0) as Hwrap.
  destruct (threadsBool w) eqn:Hb.
  - destruct (Z.lt_ge_cases (threadsActive w) (ThreadsActiveUpperBound cfg)).
    + eexists. split; [apply (tick_rising_below rmc cfg i Hi); [done|by rewrite Hwrap]|].
      unfold osc. simpl. rewrite wrap_id by int64_lia. intros [= Hv _]. lia.
    + eexists. split; [apply tick_rising_top; [done|by rewrite Hwrap]|].
      unfold osc. simpl. by intros [=].
  - destruct (Z.lt_ge_cases 0 (threadsActive w)).
    + eexists. split; [by apply (tick_falling_above rmc cfg i Hi)|].
      unfold osc. simpl. rewrite Hb. by intros [=].
    + eexists. split; [by apply tick_falling_bottom|].
      unfold osc. simpl. rewrite wrap_id by int64_lia. intros [= Hv]. lia.
Qed.

(** X2.  For a bound [B >= 1] the state [(0, Rising)] is initial only: from
    any state with the value in [[0, B]], the state after one or more ticks
    is never [(0, Rising)]. *)
Theorem start_state_never_recurs rmc cfg i w0 (n : nat) :
  rmc_threadsActive rmc = Some i ->
  1 <= ThreadsActiveUpperBound cfg <= Int64.max_int ->
  0 <= threadsActive w0 <= ThreadsActiveUpperBound cfg ->
  (1 <= n)%nat ->
  exists w, ticks n rmc cfg w0 = Done tt w /\ osc w <> (0, true).
Proof.
  intros Hi HB Hw Hn.
  assert (HB0 : 0 <= ThreadsActiveUpperBound cfg <= Int64.max_int) by lia.
  replace n with ((n - 1) + 1)%nat by lia. rewrite ticks_add.
  destruct (ticks_return rmc cfg i Hi (n - 1) w0) as [w1 Hw1].
  pose proof (ticks_in_range rmc cfg HB0 (n - 1) w0 ltac:(lia) Hw) as Hr.
  rewrite Hw1 in Hr |- *. simpl in Hr.
  destruct (tick_leaves_start rmc cfg i w1 Hi HB Hr) as (w2 & Hw2 & Ho).
  exists w2. split; [|exact Ho]. by rewrite ticks_S, Hw2.
Qed.

Lemma start_state_never_recurs_witness :
  exists w, ticks 6 full_collector (config_with 100 3 100) (init_world 0)
            = Done tt w /\ osc w <> (0, true).
Proof.
  apply (start_state_never_recurs full_collector (config_with 100 3 100)
           threads_instrument (init_world 0) 6).
  - reflexivity.
  - simpl. int64_lia.
  - simpl. lia.
  - lia.
Defined.

(** ** The oscillator: what reaches the counter *)

Lemma accumulated_app i (a b : list call) :
  accumulated i (a ++ b) = accumulated i a + accumulated i b.
Proof.
  induction a as [|[j d|j v] a IH]; simpl; [reflexivity| |exact IH].
  rewrite IH. lia.
Qed.

Lemma accumulated_own i d : accumulated i [Add i d] = d.
Proof. simpl. destruct (decide (i_name i = i_name i)); [lia|done]. Qed.

Lemma accumulated_other i j d :
  i_name j <> i_name i -> accumulated i [Add j d] = 0.
Proof. intros Hne. simpl. destruct (decide (i_name j = i_name i)); [done|lia]. Qed.

Lemma tick_calls rmc cfg w :
  exists d,
    calls (final_state (updateThreadsActive rmc cfg w)) = calls w ++ d
    /\ (d = [] \/
        exists i, rmc_threadsActive rmc = Some i /\
                  (d = [Add i 1] \/ d = [Add i (-1)])).
Proof.
  unfold updateThreadsActive, go_bind, gets.
  destruct (threadsBool w); cbn beta.
  - destruct (_ <? _); cbn beta.
    + destruct (rmc_threadsActive rmc) as [i|] eqn:Hi; simpl.
      * exists [Add i 1]. split; [done|]. right. exists i. auto.
      * exists []. split; [by rewrite app_nil_r|by left].
    + exists []. split; [by rewrite app_nil_r|by left].
  - destruct (_ >? _); cbn beta.
    + destruct (rmc_threadsActive rmc) as [i|] eqn:Hi; simpl.
      * exists [Add i (-1)]. split; [done|]. right. exists i. auto.
      * exists []. split; [by rewrite app_nil_r|by left].
    + exists []. split; [by rewrite app_nil_r|by left].
Qed.

Lemma tick_keeps_output rmc cfg w :
  let w' := final_state (updateThreadsActive rmc cfg w) in
  stdout w' = stdout w /\ registered w' = registered w.
Proof.
  unfold updateThreadsActive, go_bind, gets.
  destruct (threadsBool w); cbn beta.
  - destruct (_ <? _); cbn beta; [|done]. by destruct (rmc_threadsActive rmc).
  - destruct (_ >? _); cbn beta; [|done]. by destruct (rmc_threadsActive rmc).
Qed.

(** X3.  Whatever the state, the bound and the handles, one tick reaches
    the backend with at most one call, and that call is an [Add] of [+1] or
    of [-1] on the collector's threads-active handle: no other magnitude,
    no [Observe], no other instrument; the tick prints nothing, registers
    nothing and leaves the random source alone. *)
Theorem tick_footprint rmc cfg w :
  let o := updateThreadsActive rmc cfg w in
  (emitted w o = [] \/
   exists i, rmc_threadsActive rmc = Some i /\
             (emitted w o = [Add i 1] \/ emitted w o = [Add i (-1)]))
  /\ stdout (final_state o) = stdout w
  /\ registered (final_state o) = registered w
  /\ rand_seed (final_state o) = rand_seed w.
Proof.
  intros o. subst o.
  destruct (tick_calls rmc cfg w) as (d & Hd & Hshape).
  destruct (tick_keeps_output rmc cfg w) as [Hout Hreg].
  split; [|split; [exact Hout|split; [exact Hreg|apply tick_keeps_seed]]].
  unfold emitted. rewrite Hd, drop_app_length. exact Hshape.
Qed.

Section InStep.

Variable rmc : randomMetricCollector.
Variable cfg : Config.
Variable i : instrument.
Hypothesis registered_handle : rmc_threadsActive rmc = Some i.

Let B := ThreadsActiveUpperBound cfg.

Hypothesis B_range : 0 <= B <= Int64.max_int.

Lemma tick_in_step w :
  counter_in_step i B w ->
  exists w', updateThreadsActive rmc cfg w = Done tt w' /\
             counter_in_step i B w'.
Proof using registered_handle B_range.
  unfold counter_in_step. intros Hw.
  pose proof (wrap_bound cfg B_range) as Hwrap.
  destruct (threadsBool w) eqn:Hb; destruct Hw as [Hv Hacc].
  - destruct (Z.lt_ge_cases (threadsActive w) B).
    + eexists. split;
        [apply (tick_rising_below rmc cfg i registered_handle);
         [done|by rewrite Hwrap]|].
      simpl. rewrite Hb, wrap_id, accumulated_app, accumulated_own by int64_lia.
      lia.
    + eexists. split; [apply tick_rising_top; [done|by rewrite Hwrap]|].
      simpl. rewrite wrap_id by int64_lia. lia.
  - destruct (Z.lt_ge_cases 0 (threadsActive w)).
    + eexists. split;
        [by apply (tick_falling_above rmc cfg i registered_handle)|].
      simpl. rewrite Hb, wrap_id, accumulated_app, accumulated_own by int64_lia.
      lia.
    + eexists. split; [by apply tick_falling_bottom|].
      simpl. rewrite wrap_id by int64_lia. lia.
Qed.

Lemma ticks_in_step n w :
  counter_in_step i B w ->
  exists w', ticks n rmc cfg w = Done tt w' /\ counter_in_step i B w'.
Proof using registered_handle B_range.
  revert w. induction n as [|n IH]; intros w Hw; [by exists w|].
  destruct (tick_in_step w Hw) as (w1 & Hw1 & Hstep).
  rewrite ticks_S, Hw1. by apply IH.
Qed.

End InStep.

(** X4.  For every bound [B >= 0] (the degenerate 0 included), starting at
    [(0, Rising)] with nothing accumulated, after any number of ticks the
    value the threads-active counter has accumulated from its [Add]s equals
    [threadsActive] while the direction is Rising and is one more than
    [threadsActive] while it is Falling, and it lies in [[0, B]]. *)
Theorem counter_follows_value rmc cfg i w0 (n : nat) :
  rmc_threadsActive rmc = Some i ->
  0 <= ThreadsActiveUpperBound cfg <= Int64.max_int ->
  osc w0 = (0, true) ->
  accumulated i (calls w0) = 0 ->
  exists w,
    ticks n rmc cfg w0 = Done tt w
    /\ accumulated i (calls w)
       = threadsActive w + (if threadsBool w then 0 else 1)
    /\ 0 <= accumulated i (calls w) <= ThreadsActiveUpperBound cfg.
Proof.
  intros Hi HB Hosc Hacc. unfold osc in Hosc. injection Hosc as Hv Hb.
  destruct (ticks_in_step rmc cfg i Hi HB n w0) as (w & Hrun & Hstep).
  { unfold counter_in_step. rewrite Hb, Hv, Hacc. lia. }
  exists w. split; [exact Hrun|]. unfold counter_in_step in Hstep.
  destruct (threadsBool w); lia.
Qed.

Lemma counter_follows_value_witness :
  exists w,
    ticks 4 full_collector (config_with 100 3 100) (init_world 0) = Done tt w
    /\ accumulated threads_instrument (calls w)
       = threadsActive w + (if threadsBool w then 0 else 1)
    /\ 0 <= accumulated threads_instrument (calls w) <= 3.
Proof.
  apply (counter_follows_value full_collector (config_with 100 3 100)
           threads_instrument (init_world 0) 4).
  - reflexivity.
  - simpl. int64_lia.
  - reflexivity.
  - reflexivity.
Defined.

(** ** The synchronous loop *)

(** X5.  With the two synchronous instruments registered under different
    names, [n] passes of the loop body all return; they add [n] times
    [TimeAliveIncrementer] to the time-alive counter, print [n] lines, and
    leave the oscillator where [n] ticks alone would have left it. *)
Theorem loop_counts_time rmc cfg it ith (n : nat) w :
  rmc_timeAlive rmc = Some it ->
  rmc_threadsActive rmc = Some ith ->
  i_name ith <> i_name it ->
  exists w',
    syncLoop n rmc cfg w = Done tt w'
    /\ accumulated it (calls w')
       = accumulated it (calls w) + Z.of_nat n * TimeAliveIncrementer cfg
    /\ length (stdout w') = (length (stdout w) + n)%nat
    /\ exists u, ticks n rmc cfg w = Done tt u /\ osc u = osc w'.
Proof.
  intros Ht Hth Hne. revert w. induction n as [|n IH]; intros w.
  - exists w. repeat split; [lia|lia|by exists w].
  - set (w0 := push_call (Add it (TimeAliveIncrementer cfg)) w).
    destruct (tick_returns rmc cfg ith Hth w0) as [t Ht0].
    destruct (tick_returns rmc cfg ith Hth w) as [t' Ht'].
    pose proof (tick_view_congruence rmc rmc cfg cfg w0 w eq_refl eq_refl eq_refl)
      as Hview.
    unfold tick_view in Hview. rewrite Ht0, Ht' in Hview.
    injection Hview as _ Hv Hb.
    destruct (tick_calls rmc cfg w0) as (d & Hd & Hshape).
    destruct (tick_keeps_output rmc cfg w0) as [Hout _].
    rewrite Ht0 in Hd, Hout. simpl in Hd, Hout.
    assert (Hzero : accumulated it d = 0).
    { destruct Hshape as [->|(j & Hj & [->| ->])]; [reflexivity| |];
        rewrite Hth in Hj; injection Hj as <-; by apply accumulated_other. }
    set (w1 := push_line "Updating time alive && threads active..." t).
    destruct (IH w1) as (w' & Hrun & Hacc & Hlen & u1 & Hu1 & Ho1).
    destruct (ticks_osc_congruence rmc cfg ith Hth n w1 t' u1) as (u & Hu & Ho);
      [unfold osc; simpl; by rewrite Hv, Hb|exact Hu1|].
    exists w'. split; [|split; [|split]].
    + rewrite syncLoop_S, (syncTick_eq rmc cfg it w Ht). fold w0.
      rewrite Ht0. exact Hrun.
    + rewrite Hacc. subst w1. simpl. rewrite Hd. subst w0. simpl.
      rewrite !accumulated_app, accumulated_own, Hzero. lia.
    + rewrite Hlen. subst w1. simpl. rewrite length_app, Hout. simpl. lia.
    + exists u. split; [by rewrite ticks_S, Ht'|congruence].
Qed.

Lemma loop_counts_time_witness :
  exists w',
    syncLoop 5 full_collector (config_with 100 3 100) (init_world 0)
      = Done tt w'
    /\ accumulated time_instrument (calls w')
       = accumulated time_instrument (calls (init_world 0))
         + Z.of_nat 5 * TimeAliveIncrementer (config_with 100 3 100)
    /\ length (stdout w') = (length (stdout (init_world 0)) + 5)%nat
    /\ exists u, ticks 5 full_collector (config_with 100 3 100) (init_world 0)
                 = Done tt u /\ osc u = osc w'.
Proof.
  apply (loop_counts_time full_collector (config_with 100 3 100)
           time_instrument threads_instrument 5 (init_world 0)).
  - reflexivity.
  - reflexivity.
  - discriminate.
Defined.

Lemma new_collector_fields meter w :
  exists w',
    NewRandomMetricCollector meter w =
    Done {| rmc_timeAlive :=
              fst (new_instrument meter SyncCounter "Time Alive"
                     "Total amount of time that the application has been alive"
                     "s");
            rmc_cpuUsage :=
              fst (new_instrument meter AsyncGauge "CPU Usage"
                     "Cpu usage percent" "%");
            rmc_heapSize :=
              fst (new_instrument meter AsyncUpDownCounter "Total Heap Size"
                     "The current total heap size" "1");
            rmc_threadsActive :=
              fst (new_instrument meter SyncUpDownCounter "Threads Active"
                     "The total amount of threads active" "1") |} w'.
Proof.
  unfold NewRandomMetricCollector, registerHeapSize, registerThreadsActive,
    registerTimeAlive, registerCpuUsage, register, go_bind.
  destruct (new_instrument meter AsyncUpDownCounter _ _ _) as [h1 [e1|]],
    (new_instrument meter SyncUpDownCounter _ _ _) as [h2 [e2|]],
    (new_instrument meter SyncCounter _ _ _) as [h3 [e3|]],
    (new_instrument meter AsyncGauge _ _ _) as [h4 [e4|]];
    by eexists.
Qed.

(** X6.  The collector [NewRandomMetricCollector] returns is only as good
    as the meter's answers.  If the meter gave a nil instrument for "Time
    Alive", every pass of the loop body panics on the nil handle before it
    has changed anything; if it gave instruments for "Time Alive" and
    "Threads Active", any number of passes returns. *)
Theorem loop_needs_registered_counters meter w0 rmc w1 :
  NewRandomMetricCollector meter w0 = Done rmc w1 ->
  let time := fst (new_instrument meter SyncCounter "Time Alive"
                     "Total amount of time that the application has been alive"
                     "s") in
  let threads := fst (new_instrument meter SyncUpDownCounter "Threads Active"
                        "The total amount of threads active" "1") in
  (time = None ->
   forall cfg w, syncTick rmc cfg w = Panic nil_dereference w)
  /\ (is_Some time -> is_Some threads ->
      forall cfg n w, exists w', syncLoop n rmc cfg w = Done tt w').
Proof.
  intros Hnew time threads.
  destruct (new_collector_fields meter w0) as [w' Hfields].
  rewrite Hfields in Hnew. injection Hnew as <- _. split.
  - intros Hnil cfg w. unfold syncTick, updateTimeAlive, go_bind. simpl.
    fold time. by rewrite Hnil.
  - intros [it Hit] [ith Hith] cfg n w.
    by apply (syncLoop_returns _ cfg it ith).
Qed.

Lemma loop_needs_registered_counters_witness :
  (forall cfg w,
     syncTick {| rmc_timeAlive := None;
                 rmc_cpuUsage := Some cpu_instrument;
                 rmc_heapSize := Some heap_instrument;
                 rmc_threadsActive := Some threads_instrument |} cfg w
     = Panic nil_dereference w)
  /\ (forall cfg n w, exists w',
        syncLoop n full_collector cfg w = Done tt w').
Proof.
  split.
  - apply (loop_needs_registered_counters (rejecting_meter "Time Alive")
             (init_world 0) _
             {| threadsActive := 0; threadsBool := true; rand_seed := 0;
                calls := []; registered := [];
                stdout := ["instrument rejected: Time Alive"] |} eq_refl).
    reflexivity.
  - apply (loop_needs_registered_counters accepting_meter
             (init_world 0) full_collector (init_world 0) eq_refl);
      by eexists.
Defined.

(** ** The callbacks *)

Lemma invoke_nil rng c w :
  callback_handle c = None ->
  0 < callback_bound c ->
  invoke rng c w =
  Panic nil_dereference (set_rand_seed (Intn_advance rng (rand_seed w)) w).
Proof.
  intros Hh Hpos.
  destruct c as [rmc cfg|rmc cfg]; simpl in *;
    unfold cpuUsageCallback, heapSizeCallback, go_bind;
    rewrite Z.sub_0_r, rand_Intn_positive by exact Hpos;
    rewrite Hh; reflexivity.
Qed.

Lemma invoke_no_draw rng c w :
  callback_bound c <= 0 ->
  invoke rng c w = Panic "invalid argument to Intn" w.
Proof.
  intros Hle.
  destruct c as [rmc cfg|rmc cfg]; simpl in *;
    unfold cpuUsageCallback, heapSizeCallback, go_bind;
    rewrite Z.sub_0_r, rand_Intn_not_positive by exact Hle; reflexivity.
Qed.

(** X7.  Whatever its bound and its handle, an invocation of a registered
    callback never touches the oscillator and never registers anything; it
    reaches the backend with at most one call, an [Observe] on its own
    handle of a value in [[0, bound)], never an [Add]; it returns exactly
    when the bound is above 0 and the handle is not nil, and on a nil handle
    with a bound above 0 the draw is already consumed when it panics. *)
Theorem callback_footprint rng c w :
  let o := invoke rng c w in
  osc (final_state o) = osc w
  /\ registered (final_state o) = registered w
  /\ (emitted w o = [] \/
      exists i v, callback_handle c = Some i /\ 0 <= v < callback_bound c /\
                  emitted w o = [Observe i v])
  /\ (returned o = true <->
      0 < callback_bound c /\ is_Some (callback_handle c))
  /\ (0 < callback_bound c -> callback_handle c = None ->
      o = Panic nil_dereference
            (set_rand_seed (Intn_advance rng (rand_seed w)) w)).
Proof.
  intros o. subst o.
  destruct (Z.lt_ge_cases 0 (callback_bound c)) as [Hpos|Hle].
  - destruct (callback_handle c) as [i|] eqn:Hh.
    + rewrite (invoke_draw rng c i w Hh Hpos). unfold emitted. simpl.
      rewrite drop_app_length.
      split; [done|split; [done|split; [|split]]].
      * right. exists i, (Intn_value rng (rand_seed w) (callback_bound c)).
        split; [done|]. split; [by apply Intn_range|done].
      * split; [intros _; split; [done|by eexists]|done].
      * intros _ [=].
    + rewrite (invoke_nil rng c w Hh Hpos). unfold emitted. simpl.
      rewrite drop_all.
      split; [done|split; [done|split; [by left|split]]].
      * split; [done|]. intros [_ [i Hi]]. discriminate.
      * done.
  - rewrite (invoke_no_draw rng c w Hle). unfold emitted. simpl.
    rewrite drop_all.
    split; [done|split; [done|split; [by left|split]]].
    + split; [done|]. intros [Hpos _]. lia.
    + intros Hpos. lia.
Qed.

Lemma times_S {St} (n : nat) (body : go St unit) (s : St) :
  times (S n) body s =
  match body s with
  | Done _ s' => times n body s'
  | Panic msg s' => Panic msg s'
  end.
Proof. reflexivity. Qed.

(** X8.  With the instrument registered and a bound above 0, [n]
    invocations of a callback in a row all return and leave exactly [n] new
    calls at the backend, each of them an [Observe] on the callback's
    instrument of a value in [[0, bound)]. *)
Theorem repeated_draws_in_range rng c i (n : nat) w :
  callback_handle c = Some i ->
  0 < callback_bound c ->
  exists w' obs,
    times n (invoke rng c) w = Done tt w'
    /\ calls w' = calls w ++ obs
    /\ length obs = n
    /\ Forall (observes_below i (callback_bound c)) obs.
Proof.
  intros Hh Hpos. revert w. induction n as [|n IH]; intros w.
  - exists w, []. by rewrite app_nil_r.
  - rewrite times_S, (invoke_draw rng c i w Hh Hpos).
    destruct (IH (push_line (callback_line c)
                    (push_call (Observe i (Intn_value rng (rand_seed w)
                                             (callback_bound c)))
                       (set_rand_seed (Intn_advance rng (rand_seed w)) w))))
      as (w' & obs & Hrun & Hcalls & Hlen & Hall).
    exists w', (Observe i (Intn_value rng (rand_seed w) (callback_bound c)) :: obs).
    split; [exact Hrun|]. split; [|split].
    + rewrite Hcalls. simpl. by rewrite <- app_assoc.
    + simpl. by rewrite Hlen.
    + constructor; [|exact Hall]. eexists. split; [reflexivity|].
      by apply Intn_range.
Qed.

Lemma repeated_draws_in_range_witness :
  let c := CpuUsageCallback full_collector (config_with 100 10 100) in
  exists w' obs,
    times 4 (invoke lcg c) (init_world 2024) = Done tt w'
    /\ calls w' = calls (init_world 2024) ++ obs
    /\ length obs = 4%nat
    /\ Forall (observes_below cpu_instrument (callback_bound c)) obs.
Proof.
  apply (repeated_draws_in_range lcg
           (CpuUsageCallback full_collector (config_with 100 10 100))
           cpu_instrument 4 (init_world 2024)).
  - reflexivity.
  - simpl. lia.
Defined.

(** ** The two clocks together *)

Lemma ticks_osc_congruence_any rmc cfg (n : nat) w1 w2 u1 :
  osc w1 = osc w2 ->
  ticks n rmc cfg w1 = Done tt u1 ->
  exists u2, ticks n rmc cfg w2 = Done tt u2 /\ osc u2 = osc u1.
Proof.
  revert w1 w2. induction n as [|n IH]; intros w1 w2 Hosc Hrun.
  - injection Hrun as <-. by exists w2.
  - rewrite ticks_S in Hrun |- *.
    pose proof (tick_view_congruence rmc rmc cfg cfg w1 w2 Hosc eq_refl eq_refl)
      as Hview.
    unfold tick_view in Hview.
    destruct (updateThreadsActive rmc cfg w1) as [[] t1|m1 t1]; [|discriminate].
    destruct (updateThreadsActive rmc cfg w2) as [[] t2|m2 t2];
      simpl in Hview; [|discriminate].
    apply (IH t1 t2); [congruence|exact Hrun].
Qed.

Lemma invoke_returned rng c w w' :
  invoke rng c w = Done tt w' ->
  osc w' = osc w /\ rand_seed w' = Intn_advance rng (rand_seed w).
Proof.
  intros Hrun.
  destruct (Z.lt_ge_cases 0 (callback_bound c)) as [Hpos|Hle].
  - destruct (callback_handle c) as [i|] eqn:Hh.
    + rewrite (invoke_draw rng c i w Hh Hpos) in Hrun. by injection Hrun as <-.
    + by rewrite (invoke_nil rng c w Hh Hpos) in Hrun.
  - by rewrite (invoke_no_draw rng c w Hle) in Hrun.
Qed.

(** X9.  The two clocks do not disturb each other.  If an interleaving of
    oscillator ticks and callback invocations returns, the oscillator ends
    in the state the ticks alone would have produced, and the random source
    in the state the invocations alone would have produced: one step of the
    source per invocation, none per tick. *)
Theorem clocks_do_not_interfere rng rmc cfg (es : list event) w w' :
  run_schedule rng rmc cfg es w = Done tt w' ->
  (exists u, ticks (count_ticks es) rmc cfg w = Done tt u /\ osc u = osc w')
  /\ rand_seed w' = Nat.iter (count_collects es) (Intn_advance rng) (rand_seed w).
Proof.
  revert w. induction es as [|e es IH]; intros w Hrun.
  - injection Hrun as <-. split; [by exists w|reflexivity].
  - simpl in Hrun. unfold go_bind in Hrun.
    destruct (run_event rng rmc cfg e w) as [[] w1|msg w1] eqn:He; [|discriminate].
    destruct (IH w1 Hrun) as [(u1 & Hu1 & Ho1) Hseed].
    destruct e as [|c]; simpl in He |- *.
    + split.
      * exists u1. split; [|exact Ho1]. by rewrite ticks_S, He.
      * rewrite Hseed. f_equal.
        pose proof (tick_keeps_seed rmc cfg w) as Hs. by rewrite He in Hs.
    + destruct (invoke_returned rng c w w1 He) as [Hosc Hs]. split.
      * destruct (ticks_osc_congruence_any rmc cfg (count_ticks es) w1 w u1)
          as (u & Hu & Ho); [exact Hosc|exact Hu1|].
        exists u. split; [exact Hu|congruence].
      * rewrite Hseed, Hs. symmetry. apply Nat.iter_succ_r.
Qed.

Lemma clocks_do_not_interfere_witness :
  let cfg := config_with 50 3 100 in
  let cpu := Collect (CpuUsageCallback full_collector cfg) in
  let heap := Collect (HeapSizeCallback full_collector cfg) in
  let es := [Tick; cpu; Tick; Tick; heap; Tick; cpu] in
  let w' := final_state (run_schedule lcg full_collector cfg es (init_world 1)) in
  (exists u, ticks (count_ticks es) full_collector cfg (init_world 1) = Done tt u
             /\ osc u = osc w')
  /\ rand_seed w'
     = Nat.iter (count_collects es) (Intn_advance lcg) (rand_seed (init_world 1)).
Proof.
  apply (clocks_do_not_interfere lcg full_collector (config_with 50 3 100)).
  vm_compute. reflexivity.
Defined.

(** X10.  [UpdateMetricsClient] registers the CPU-usage callback, then the
    heap-size callback, and makes no call on an instrument.  A rejection by
    the meter is fatal: rejected at the first registration it panics with
    the meter's error and nothing is registered; rejected at the second it
    panics with that error while the CPU-usage callback stays registered. *)
Theorem callback_registration meter rmc cfg w :
  let cpu := RegisterCallback meter [rmc_cpuUsage rmc] in
  let heap := RegisterCallback meter [rmc_heapSize rmc] in
  let o := UpdateMetricsClient meter rmc cfg w in
  calls (final_state o) = calls w
  /\ (cpu = None -> heap = None ->
      o = Done tt (push_callback (HeapSizeCallback rmc cfg)
                     (push_callback (CpuUsageCallback rmc cfg) w)))
  /\ (forall e, cpu = Some e -> o = Panic e w)
  /\ (forall e, cpu = None -> heap = Some e ->
      o = Panic e (push_callback (CpuUsageCallback rmc cfg) w)).
Proof.
  intros cpu heap o. subst o.
  unfold UpdateMetricsClient, updateCpuUsage, updateTotalHeapSize, go_bind.
  fold cpu heap. destruct cpu as [e1|], heap as [e2|]; simpl;
    (split; [reflexivity|split; [|split]]);
    first [ by intros [=] | by intros ? [=] | by intros ? ? [=]
          | by intros ? [= <-] | by intros ? ? [= <-] | by intros ].
Qed.

(** ** The observers of package [main] *)

Import Observers.

Lemma observer_simulates meter w :
  upDownCounterObserver meter w =
  match updateThreadsActive (observer_collector meter) observer_config w with
  | Done _ t => Done tt (push_line (pretty (threadsActive t)) t)
  | Panic msg t => Panic msg t
  end.
Proof.
  unfold upDownCounterObserver, observer_collector, updateThreadsActive,
    go_bind, gets. simpl.
  destruct (new_instrument meter SyncUpDownCounter _ _ _) as [h e]. simpl.
  destruct (threadsBool w); cbn beta.
  - destruct (_ <? _); cbn beta; [|reflexivity]. by destruct h.
  - destruct (_ >? _); cbn beta; [|reflexivity]. by destruct h.
Qed.

(** X11.  [upDownCounterObserver] is the oscillator of package
    [collection] at the fixed bound 10: on every world it does what
    [updateThreadsActive] does with the handle the meter returns for
    "Threads Active" and [ThreadsActiveUpperBound = 10], and then prints the
    new value of [threadsActive]; when the tick panics nothing is printed. *)
Theorem observer_is_the_oscillator_at_ten meter w :
  ThreadsActiveUpperBound observer_config = 10
  /\ upDownCounterObserver meter w =
     match updateThreadsActive (observer_collector meter) observer_config w with
     | Done _ t => Done tt (push_line (pretty (threadsActive t)) t)
     | Panic msg t => Panic msg t
     end.
Proof. split; [reflexivity|apply observer_simulates]. Qed.

Lemma observer_step meter i w :
  rmc_threadsActive (observer_collector meter) = Some i ->
  exists t,
    updateThreadsActive (observer_collector meter) observer_config w = Done tt t
    /\ upDownCounterObserver meter w
       = Done tt (push_line (pretty (threadsActive t)) t).
Proof.
  intros Hi.
  destruct (tick_returns (observer_collector meter) observer_config i Hi w)
    as [t Ht].
  exists t. split; [exact Ht|]. by rewrite observer_simulates, Ht.
Qed.

Lemma observer_run meter i (n : nat) w :
  rmc_threadsActive (observer_collector meter) = Some i ->
  exists w' u,
    times n (upDownCounterObserver meter) w = Done tt w'
    /\ ticks n (observer_collector meter) observer_config w = Done tt u
    /\ osc u = osc w'
    /\ length (stdout w') = (length (stdout w) + n)%nat.
Proof.
  intros Hi. revert w. induction n as [|n IH]; intros w.
  - exists w, w. repeat split. simpl. lia.
  - destruct (observer_step meter i w Hi) as (t & Ht & Hobs).
    destruct (IH (push_line (pretty (threadsActive t)) t))
      as (w' & u1 & Hrun & Hu1 & Ho1 & Hlen).
    destruct (ticks_osc_congruence_any (observer_collector meter)
                observer_config n (push_line (pretty (threadsActive t)) t) t u1)
      as (u & Hu & Ho); [reflexivity|exact Hu1|].
    destruct (tick_keeps_output (observer_collector meter) observer_config w)
      as [Hout _].
    rewrite Ht in Hout. simpl in Hout.
    exists w', u. split; [by rewrite times_S, Hobs|].
    split; [by rewrite ticks_S, Ht|]. split; [congruence|].
    rewrite Hlen. simpl. rewrite length_app, Hout. simpl. lia.
Qed.

(** X12.  When the meter hands out the "Threads Active" instrument, [n]
    calls of [upDownCounterObserver] from [(0, Rising)] all return, keep
    [threadsActive] in [[0, 10]], end in the oscillator state that [n] ticks
    of [updateThreadsActive] at the bound 10 reach, and print one line per
    call, the last line being the decimal form of the current value. *)
Theorem observer_wave meter i (n : nat) w0 :
  rmc_threadsActive (observer_collector meter) = Some i ->
  osc w0 = (0, true) ->
  exists w,
    times n (upDownCounterObserver meter) w0 = Done tt w
    /\ 0 <= threadsActive w <= 10
    /\ (exists u, ticks n (observer_collector meter) observer_config w0
                  = Done tt u /\ osc u = osc w)
    /\ length (stdout w) = (length (stdout w0) + n)%nat
    /\ ((1 <= n)%nat -> last (stdout w) = Some (pretty (threadsActive w))).
Proof.
  intros Hi Hosc. unfold osc in Hosc. injection Hosc as Hv Hb.
  destruct (observer_run meter i n w0 Hi) as (w & u & Hrun & Hu & Ho & Hlen).
  exists w. split; [exact Hrun|]. split; [|split; [by exists u|split; [exact Hlen|]]].
  - assert (H10 : ThreadsActiveUpperBound observer_config = 10) by reflexivity.
    assert (HB : 0 <= ThreadsActiveUpperBound observer_config <= Int64.max_int)
      by (rewrite H10; int64_lia).
    pose proof (ticks_in_range (observer_collector meter) observer_config HB
                  n w0) as Hr.
    rewrite H10, Hu in Hr. simpl in Hr.
    unfold osc in Ho. injection Ho as Hv' _. lia.
  - intros Hn. destruct n as [|m]; [lia|].
    replace (S m) with (m + 1)%nat in Hrun by lia.
    rewrite times_add in Hrun.
    destruct (times m (upDownCounterObserver meter) w0) as [[] w1|msg w1];
      [|discriminate].
    destruct (observer_step meter i w1 Hi) as (t & _ & Hobs).
    rewrite times_S, Hobs in Hrun. injection Hrun as <-.
    simpl. by rewrite last_snoc.
Qed.

Lemma observer_wave_witness :
  exists w,
    times 12 (upDownCounterObserver accepting_meter) (init_world 0) = Done tt w
    /\ 0 <= threadsActive w <= 10
    /\ (exists u, ticks 12 (observer_collector accepting_meter) observer_config
                    (init_world 0)
                  = Done tt u /\ osc u = osc w)
    /\ length (stdout w) = (length (stdout (init_world 0)) + 12)%nat
    /\ ((1 <= 12)%nat -> last (stdout w) = Some (pretty (threadsActive w))).
Proof.
  apply (observer_wave accepting_meter threads_instrument 12 (init_world 0));
    reflexivity.
Defined.

(** X13.  [counterObserver] discards the error of the constructor.  If the
    meter returns the "Time Alive" counter, [n] calls all return and add
    exactly [n] to it; if the meter returns a nil instrument the call panics
    on the nil handle, whatever error came with it, and changes nothing. *)
Theorem counterObserver_counts meter (n : nat) w :
  let answer := new_instrument meter SyncCounter "Time Alive"
                  "Total time that the application has been alive for" "s" in
  (forall i, fst answer = Some i ->
     exists w', times n (counterObserver meter) w = Done tt w'
                /\ calls w' = calls w ++ replicate n (Add i 1)
                /\ accumulated i (calls w')
                   = accumulated i (calls w) + Z.of_nat n)
  /\ (fst answer = None ->
      counterObserver meter w = Panic nil_dereference w).
Proof.
  intros answer. split.
  - intros i Hi. revert w. induction n as [|n IH]; intros w.
    + exists w. simpl. rewrite app_nil_r. repeat split. lia.
    + assert (Hone : counterObserver meter w = Done tt (push_call (Add i 1) w)).
      { unfold counterObserver. fold answer.
        destruct answer as [h e]. simpl in Hi. by subst h. }
      destruct (IH (push_call (Add i 1) w)) as (w' & Hrun & Hcalls & Hacc).
      exists w'. split; [by rewrite times_S, Hone|]. split.
      * rewrite Hcalls. simpl. by rewrite <- app_assoc.
      * rewrite Hacc. simpl. rewrite accumulated_app, accumulated_own. lia.
  - intros Hnil. unfold counterObserver. fold answer.
    destruct answer as [h e]. simpl in Hnil. by subst h.
Qed.

Lemma counterObserver_counts_witness :
  (exists w', times 3 (counterObserver accepting_meter) (init_world 0)
              = Done tt w'
              /\ calls w' = calls (init_world 0)
                            ++ replicate 3
                                 (Add (Instrument SyncCounter "Time Alive"
                                         "Total time that the application has been alive for"
                                         "s") 1)
              /\ accumulated (Instrument SyncCounter "Time Alive"
                                "Total time that the application has been alive for"
                                "s") (calls w')
                 = accumulated (Instrument SyncCounter "Time Alive"
                                  "Total time that the application has been alive for"
                                  "s") (calls (init_world 0))
                   + Z.of_nat 3)
  /\ counterObserver (rejecting_meter "Time Alive") (init_world 0)
     = Panic nil_dereference (init_world 0).
Proof.
  split.
  - apply (counterObserver_counts accepting_meter 3 (init_world 0)).
    reflexivity.
  - apply (counterObserver_counts (rejecting_meter "Time Alive") 3 (init_world 0)).
    reflexivity.
Defined.

(** ** The configuration loader, further *)

Import Main.

Section Decoding.

Variable yaml : Yaml.
Variable m : gmap string (node yaml).

Lemma decode_eq c :
  decode yaml m c =
  ({| Host := fst (decode_field yaml (as_string yaml) m "Host" (Host c));
      Port := fst (decode_field yaml (as_string yaml) m "Port" (Port c));
      TimeAliveIncrementer :=
        fst (decode_field yaml (as_int64 yaml) m
               "RandomTimeAliveIncrementer" (TimeAliveIncrementer c));
      TotalheapSizeUpperBound :=
        fst (decode_field yaml (as_int64 yaml) m
               "RandomTotalHeapSizeUpperBound" (TotalheapSizeUpperBound c));
      ThreadsActiveUpperBound :=
        fst (decode_field yaml (as_int64 yaml) m
               "RandomThreadsActiveUpperBound" (ThreadsActiveUpperBound c));
      CpuUsageUpperBound :=
        fst (decode_field yaml (as_int64 yaml) m
               "RandomCpuUsageUpperBound" (CpuUsageUpperBound c)) |},
   if snd (decode_field yaml (as_string yaml) m "Host" (Host c))
      && snd (decode_field yaml (as_string yaml) m "Port" (Port c))
      && snd (decode_field yaml (as_int64 yaml) m
                "RandomTimeAliveIncrementer" (TimeAliveIncrementer c))
      && snd (decode_field yaml (as_int64 yaml) m
                "RandomTotalHeapSizeUpperBound" (TotalheapSizeUpperBound c))
      && snd (decode_field yaml (as_int64 yaml) m
                "RandomThreadsActiveUpperBound" (ThreadsActiveUpperBound c))
      && snd (decode_field yaml (as_int64 yaml) m
                "RandomCpuUsageUpperBound" (CpuUsageUpperBound c))
   then None else Some "yaml: unmarshal errors").
Proof using Type.
  unfold decode.
  destruct (decode_field yaml (as_string yaml) m "Host" _),
    (decode_field yaml (as_string yaml) m "Port" _),
    (decode_field yaml (as_int64 yaml) m "RandomTimeAliveIncrementer" _),
    (decode_field yaml (as_int64 yaml) m "RandomTotalHeapSizeUpperBound" _),
    (decode_field yaml (as_int64 yaml) m "RandomThreadsActiveUpperBound" _),
    (decode_field yaml (as_int64 yaml) m "RandomCpuUsageUpperBound" _).
  reflexivity.
Qed.

Lemma decode_field_flag {A} (conv : node yaml -> option A) key o1 o2 :
  snd (decode_field yaml conv m key o1) = snd (decode_field yaml conv m key o2).
Proof using Type.
  unfold decode_field. destruct (m !! key) as [n|]; [|done].
  destruct (is_null yaml n); [done|]. by destruct (conv n).
Qed.

Lemma decode_field_again {A} (conv : node yaml -> option A) key old :
  decode_field yaml conv m key (fst (decode_field yaml conv m key old))
  = decode_field yaml conv m key old.
Proof using Type.
  unfold decode_field. destruct (m !! key) as [n|]; [|done].
  destruct (is_null yaml n); [done|]. by destruct (conv n).
Qed.

Lemma decode_field_ok {A} (conv : node yaml -> option A) key old :
  snd (decode_field yaml conv m key old) = true ->
  field_of yaml conv m key old = Some (fst (decode_field yaml conv m key old)).
Proof using Type.
  unfold decode_field, field_of. destruct (m !! key) as [n|]; [|done].
  destruct (is_null yaml n); [done|]. by destruct (conv n).
Qed.

Lemma decode_field_present {A} (conv : node yaml -> option A) key o1 o2 :
  has_value yaml m key ->
  snd (decode_field yaml conv m key o1) = true ->
  fst (decode_field yaml conv m key o1) = fst (decode_field yaml conv m key o2).
Proof using Type.
  unfold decode_field. intros (n & -> & ->). by destruct (conv n).
Qed.

Lemma decode_flags c :
  snd (decode yaml m c) = None ->
  snd (decode_field yaml (as_string yaml) m "Host" (Host c)) = true
  /\ snd (decode_field yaml (as_string yaml) m "Port" (Port c)) = true
  /\ snd (decode_field yaml (as_int64 yaml) m
            "RandomTimeAliveIncrementer" (TimeAliveIncrementer c)) = true
  /\ snd (decode_field yaml (as_int64 yaml) m
            "RandomTotalHeapSizeUpperBound" (TotalheapSizeUpperBound c)) = true
  /\ snd (decode_field yaml (as_int64 yaml) m
            "RandomThreadsActiveUpperBound" (ThreadsActiveUpperBound c)) = true
  /\ snd (decode_field yaml (as_int64 yaml) m
            "RandomCpuUsageUpperBound" (CpuUsageUpperBound c)) = true.
Proof using Type.
  rewrite decode_eq. simpl.
  destruct (snd (decode_field yaml (as_string yaml) m "Host" _)),
    (snd (decode_field yaml (as_string yaml) m "Port" _)),
    (snd (decode_field yaml (as_int64 yaml) m "RandomTimeAliveIncrementer" _)),
    (snd (decode_field yaml (as_int64 yaml) m "RandomTotalHeapSizeUpperBound" _)),
    (snd (decode_field yaml (as_int64 yaml) m "RandomThreadsActiveUpperBound" _)),
    (snd (decode_field yaml (as_int64 yaml) m "RandomCpuUsageUpperBound" _));
    simpl; intros H; try discriminate; done.
Qed.

Lemma decode_error_independent c1 c2 :
  snd (decode yaml m c1) = snd (decode yaml m c2).
Proof using Type.
  rewrite !decode_eq. simpl.
  rewrite (decode_field_flag (as_string yaml) "Host" (Host c1) (Host c2)),
    (decode_field_flag (as_string yaml) "Port" (Port c1) (Port c2)),
    (decode_field_flag (as_int64 yaml) "RandomTimeAliveIncrementer"
       (TimeAliveIncrementer c1) (TimeAliveIncrementer c2)),
    (decode_field_flag (as_int64 yaml) "RandomTotalHeapSizeUpperBound"
       (TotalheapSizeUpperBound c1) (TotalheapSizeUpperBound c2)),
    (decode_field_flag (as_int64 yaml) "RandomThreadsActiveUpperBound"
       (ThreadsActiveUpperBound c1) (ThreadsActiveUpperBound c2)),
    (decode_field_flag (as_int64 yaml) "RandomCpuUsageUpperBound"
       (CpuUsageUpperBound c1) (CpuUsageUpperBound c2)).
  reflexivity.
Qed.

Lemma decode_again c :
  decode yaml m (fst (decode yaml m c)) = decode yaml m c.
Proof using Type.
  rewrite (decode_eq c). simpl. rewrite decode_eq. simpl.
  by rewrite !decode_field_again.
Qed.

End Decoding.

Lemma getConf_cases yaml fs c :
  getConf yaml fs c =
  match fs !! "config.yaml" with
  | None => documented_default
  | Some data =>
      match parse yaml data with
      | None => documented_default
      | Some m =>
          match snd (decode yaml m c) with
          | Some _ => documented_default
          | None => fst (decode yaml m c)
          end
      end
  end.
Proof.
  unfold getConf, ReadFile, Unmarshal.
  destruct (fs !! "config.yaml") as [data|]; [|reflexivity].
  destruct (parse yaml data) as [m|]; [|reflexivity].
  by destruct (decode yaml m c) as [c' [e|]].
Qed.

(** X14.  Loading is idempotent: running [getConf] on the struct a first
    [getConf] has filled gives that struct again, whether the first load
    fell back to the defaults or decoded the file. *)
Theorem getConf_idempotent yaml fs c :
  getConf yaml fs (getConf yaml fs c) = getConf yaml fs c.
Proof.
  rewrite (getConf_cases yaml fs c).
  destruct (fs !! "config.yaml") as [data|] eqn:Hfile;
    [|by rewrite getConf_cases, Hfile].
  destruct (parse yaml data) as [m|] eqn:Hparse;
    [|by rewrite getConf_cases, Hfile, Hparse].
  destruct (snd (decode yaml m c)) as [e|] eqn:Herr.
  - rewrite getConf_cases, Hfile, Hparse.
    by rewrite (decode_error_independent yaml m documented_default c), Herr.
  - by rewrite getConf_cases, Hfile, Hparse, decode_again, Herr.
Qed.

(** X15.  When the file is read and decoded without error, every field of
    the result is the converted value of its key if the document gives the
    key a value that is not null, and the value the struct held before the
    call if the key is absent or its value is null: for any starting struct,
    not only the zero one. *)
Theorem loaded_fields yaml fs data m c :
  fs !! "config.yaml" = Some data ->
  parse yaml data = Some m ->
  snd (decode yaml m c) = None ->
  let r := getConf yaml fs c in
  field_of yaml (as_string yaml) m "Host" (Host c) = Some (Host r)
  /\ field_of yaml (as_string yaml) m "Port" (Port c) = Some (Port r)
  /\ field_of yaml (as_int64 yaml) m "RandomTimeAliveIncrementer"
       (TimeAliveIncrementer c) = Some (TimeAliveIncrementer r)
  /\ field_of yaml (as_int64 yaml) m "RandomTotalHeapSizeUpperBound"
       (TotalheapSizeUpperBound c) = Some (TotalheapSizeUpperBound r)
  /\ field_of yaml (as_int64 yaml) m "RandomThreadsActiveUpperBound"
       (ThreadsActiveUpperBound c) = Some (ThreadsActiveUpperBound r)
  /\ field_of yaml (as_int64 yaml) m "RandomCpuUsageUpperBound"
       (CpuUsageUpperBound c) = Some (CpuUsageUpperBound r).
Proof.
  intros Hfile Hparse Hok r. subst r.
  rewrite getConf_cases, Hfile, Hparse, Hok.
  destruct (decode_flags yaml m c Hok) as (H1 & H2 & H3 & H4 & H5 & H6).
  rewrite decode_eq. simpl.
  by rewrite !decode_field_ok.
Qed.

Lemma loaded_fields_witness :
  let fs : gmap string string :=
    {[ "config.yaml" := "RandomThreadsActiveUpperBound: 25" ]} in
  let m : gmap string string :=
    {[ "RandomThreadsActiveUpperBound" := "25" ]} in
  let c := documented_default in
  let r := getConf one_line_yaml fs c in
  field_of one_line_yaml (as_string one_line_yaml) m "Host" (Host c)
    = Some (Host r)
  /\ field_of one_line_yaml (as_string one_line_yaml) m "Port" (Port c)
     = Some (Port r)
  /\ field_of one_line_yaml (as_int64 one_line_yaml) m
       "RandomTimeAliveIncrementer" (TimeAliveIncrementer c)
     = Some (TimeAliveIncrementer r)
  /\ field_of one_line_yaml (as_int64 one_line_yaml) m
       "RandomTotalHeapSizeUpperBound" (TotalheapSizeUpperBound c)
     = Some (TotalheapSizeUpperBound r)
  /\ field_of one_line_yaml (as_int64 one_line_yaml) m
       "RandomThreadsActiveUpperBound" (ThreadsActiveUpperBound c)
     = Some (ThreadsActiveUpperBound r)
  /\ field_of one_line_yaml (as_int64 one_line_yaml) m
       "RandomCpuUsageUpperBound" (CpuUsageUpperBound c)
     = Some (CpuUsageUpperBound r).
Proof.
  apply (loaded_fields one_line_yaml
           {[ "config.yaml" := "RandomThreadsActiveUpperBound: 25" ]}
           "RandomThreadsActiveUpperBound: 25"
           {[ "RandomThreadsActiveUpperBound" := "25" ]}
           documented_default);
    reflexivity.
Defined.

(** A null value is not a value: [Host: ~] decodes without error and leaves
    [Host] as the struct had it, the default in one case and the empty
    string in the other. *)
Example null_value_keeps_the_field :
  let fs : gmap string string := {[ "config.yaml" := "Host: ~" ]} in
  getConf one_line_yaml fs documented_default = documented_default
  /\ getConf one_line_yaml fs zero_conf = zero_conf.
Proof. split; reflexivity. Qed.

(** X16.  A document that gives all six keys a value that is not null
    decides the result alone: if config.yaml is missing, or is unparseable,
    or its document has such a value for each of the six keys, [getConf]
    returns the same struct whatever the struct held before the call. *)
Theorem complete_document_overrides yaml fs c1 c2 :
  (forall data m,
     fs !! "config.yaml" = Some data ->
     parse yaml data = Some m ->
     Forall (has_value yaml m) conf_keys) ->
  getConf yaml fs c1 = getConf yaml fs c2.
Proof.
  intros Hkeys. rewrite !getConf_cases.
  destruct (fs !! "config.yaml") as [data|] eqn:Hfile; [|reflexivity].
  destruct (parse yaml data) as [m|] eqn:Hparse; [|reflexivity].
  specialize (Hkeys data m eq_refl Hparse).
  rewrite (decode_error_independent yaml m c2 c1).
  destruct (snd (decode yaml m c1)) as [e|] eqn:Herr; [reflexivity|].
  destruct (decode_flags yaml m c1 Herr) as (H1 & H2 & H3 & H4 & H5 & H6).
  unfold conf_keys in Hkeys.
  repeat match goal with
         | H : Forall _ (_ :: _) |- _ =>
             apply Forall_cons_1 in H; destruct H as [? H]
         end.
  rewrite !decode_eq. simpl.
  f_equal; by apply decode_field_present.
Qed.

Lemma complete_document_overrides_witness :
  getConf lines_yaml {[ "config.yaml" := complete_file ]} zero_conf
  = getConf lines_yaml {[ "config.yaml" := complete_file ]} documented_default.
Proof.
  apply (complete_document_overrides lines_yaml
           {[ "config.yaml" := complete_file ]} zero_conf documented_default).
  intros data m Hfile Hparse.
  rewrite lookup_singleton_eq in Hfile. injection Hfile as <-.
  assert (Hm : parse lines_yaml complete_file =
               Some (list_to_map
                       [("Host", "10.0.0.7"); ("Port", "9000");
                        ("RandomTimeAliveIncrementer", "2");
                        ("RandomTotalHeapSizeUpperBound", "500");
                        ("RandomThreadsActiveUpperBound", "8");
                        ("RandomCpuUsageUpperBound", "90")]))
    by reflexivity.
  rewrite Hm in Hparse. injection Hparse as <-.
  unfold conf_keys, has_value. repeat constructor; by eexists.
Defined.
